(** * BlackJack-Simulator: a shallow embedding of [blackjack.py] and
    [blackjack_bot.py], and the properties of the specification proved on it.

    Conventions of the embedding.
    - Python integers are [Z] (counts that only grow from 0 are [Z] as well,
      lengths are [nat] and injected with [Z.of_nat]).
    - Python floats (true count, penetration, bankroll) are exact rationals
      [Q]; equalities on them are stated with [==] where a quotient is
      simplified.
    - The thirteen rank strings and four suit symbols of [Deck.__init__] are
      enumerations.
    - The object identity [id(card)] that [CardCounter] relies on is the
      field [ident] of a card: the allocation number of the object.
    - A raised exception is an [Error]; loops that need not terminate
      ([player_turn] with an invalid action) take fuel. *)

From Stdlib Require Import ZArith QArith Qminmax Lqa Lia.
From stdpp Require Import base decidable option list gmap sets.

Set Warnings "-clear-no-such-hyp".
Close Scope Q_scope.
Open Scope Z_scope.

(** ** Exceptions *)

Inductive exn : Type :=
  | IndexError          (* pop from empty list, list index out of range *)
  | ZeroDivisionError
  | OutOfFuel.          (* the model, not Python: the loop was cut *)

Inductive Res (A : Type) : Type :=
  | Ok (a : A)
  | Error (e : exn).
Arguments Ok {A} a.
Arguments Error {A} e.

(** The error monad, with stdpp's [x ← m; k] notation. *)
Global Instance Res_ret : MRet Res := fun A a => Ok a.
Global Instance Res_bind : MBind Res := fun A B k m =>
  match m with
  | Ok a => k a
  | Error e => Error e
  end.

(** ** blackjack.py: Card *)

Inductive Suit : Type := Spades | Hearts | Diamonds | Clubs.

Inductive Rank : Type :=
  | R2 | R3 | R4 | R5 | R6 | R7 | R8 | R9 | R10 | RJ | RQ | RK | RA.

Global Instance Rank_eq_dec : EqDecision Rank.
Proof. solve_decision. Defined.
Global Instance Suit_eq_dec : EqDecision Suit.
Proof. solve_decision. Defined.

(** [int(self.rank)] on the numeral ranks; the face ranks and the ace never
    reach it in the source (they are tested first), there it is 0. *)
Definition int_of_rank (r : Rank) : Z :=
  match r with
  | R2 => 2 | R3 => 3 | R4 => 4 | R5 => 5 | R6 => 6 | R7 => 7 | R8 => 8
  | R9 => 9 | R10 => 10
  | RJ | RQ | RK | RA => 0
  end.

Module Card.
Record t : Type := mk { suit : Suit; rank : Rank; ident : nat }.

Definition value (self : t) : Z :=
  if bool_decide (rank self ∈ [RJ; RQ; RK]) then 10
  else if bool_decide (rank self = RA) then 11
  else int_of_rank (rank self).
End Card.

Global Instance Card_eq_dec : EqDecision Card.t.
Proof. solve_decision. Defined.

(** ** blackjack.py: Hand *)

Definition sum_Z (l : list Z) : Z := foldr Z.add 0 l.

Module Hand.
(** [self.cards]; [add_card] appends. *)
Abbreviation t := (list Card.t) (only parsing).

Definition empty : t := [].

Definition add_card (self : t) (card : Card.t) : t := self ++ [card].

(** [value = sum(card.value() for card in self.cards)] *)
Definition nominal (self : t) : Z := sum_Z (Card.value <$> self).

(** [aces = sum(1 for card in self.cards if card.rank == 'A')] *)
Definition aces (self : t) : nat :=
  length (filter (fun c => Card.rank c = RA) self).

(** [while value > 21 and aces: value -= 10; aces -= 1], returning the
    value and the aces still counted as 11. *)
Fixpoint reduce (value : Z) (aces : nat) : Z * nat :=
  match aces with
  | O => (value, O)
  | S aces' =>
      if bool_decide (value > 21) then reduce (value - 10) aces'
      else (value, aces)
  end.

Definition get_value (self : t) : Z :=
  fst (reduce (nominal self) (aces self)).

Definition is_blackjack (self : t) : bool :=
  bool_decide (length self = 2%nat) && bool_decide (get_value self = 21).

Definition is_bust (self : t) : bool :=
  bool_decide (get_value self > 21).
End Hand.

(** ** blackjack_bot.py: CardCounter (Hi-Lo) *)

Module CardCounter.
Record t : Type := mk {
  running_count : Z;
  cards_seen : Z;
  seen_cards : gset nat   (* the set of [id(card)] already counted *)
}.

Definition init : t := mk 0 0 ∅.

Definition update (self : t) (card : Card.t) : t :=
  let card_id := Card.ident card in
  if bool_decide (card_id ∈ seen_cards self) then self
  else
    let seen := {[ card_id ]} ∪ seen_cards self in
    let n := cards_seen self + 1 in
    if bool_decide (Card.rank card ∈ [R2; R3; R4; R5; R6]) then
      mk (running_count self + 1) n seen
    else if bool_decide (Card.rank card ∈ [R10; RJ; RQ; RK; RA]) then
      mk (running_count self - 1) n seen
    else
      mk (running_count self) n seen.

(** [decks_remaining] is [None] when the argument is not supplied. *)
Definition get_true_count (self : t) (decks_remaining : option Q) : Q :=
  let decks_remaining :=
    match decks_remaining with
    | None =>
        let cards_remaining := 52 - cards_seen self in
        Qmax (inject_Z cards_remaining / 52) (1 # 2)
    | Some d => d
    end in
  let decks_remaining :=
    if Qle_bool decks_remaining 0 then (1 # 2)%Q else decks_remaining in
  (inject_Z (running_count self) / decks_remaining)%Q.

Definition reset (self : t) : t := mk 0 0 ∅.
End CardCounter.

(** ** blackjack.py: Deck *)

(** [list.pop()]: the last element and the rest, [IndexError] when empty. *)
Definition pop {A : Type} (l : list A) : Res (A * list A) :=
  match last l with
  | None => Error IndexError
  | Some x => Ok (x, removelast l)
  end.

Module Deck.
Record t : Type := mk {
  cards : list Card.t;
  num_decks : nat;
  total_cards : nat
}.

Definition suits : list Suit := [Spades; Hearts; Diamonds; Clubs].
Definition ranks : list Rank :=
  [R2; R3; R4; R5; R6; R7; R8; R9; R10; RJ; RQ; RK; RA].

(** The comprehension [... for _ in range(num_decks) for suit in suits
    for rank in ranks], before the cards are allocated. *)
Definition combinations (num_decks : nat) : list (Suit * Rank) :=
  _ ← seq 0 num_decks; suit ← suits; rank ← ranks; [(suit, rank)].

(** [Card(suit, rank)] allocates a new object each time: the i-th card
    built gets identity i. *)
Definition build (num_decks : nat) : list Card.t :=
  imap (fun i sr => Card.mk sr.1 sr.2 i) (combinations num_decks).

(** [__init__]; [shuffle] stands for the outcome of [random.shuffle], some
    rearrangement of the list. *)
Definition init (shuffle : list Card.t → list Card.t) (num_decks : nat) : t :=
  let cards := build num_decks in
  mk (shuffle cards) num_decks (length cards).

Definition deal (self : t) (counter : option CardCounter.t)
  : Res (Card.t * t * option CardCounter.t) :=
  '(card, rest) ← pop (cards self);
  let self := mk rest (num_decks self) (total_cards self) in
  Ok (card, self, (fun c => CardCounter.update c card) <$> counter).

Definition cards_remaining (self : t) : nat := length (cards self).

Definition penetration (self : t) : Res Q :=
  if bool_decide (total_cards self = 0%nat) then Error ZeroDivisionError
  else
    Ok (inject_Z (Z.of_nat (total_cards self) - Z.of_nat (length (cards self)))
        / inject_Z (Z.of_nat (total_cards self)) * 100)%Q.

Definition needs_shuffle (self : t) (threshold : Q) : Res bool :=
  p ← penetration self; Ok (Qle_bool threshold p).
End Deck.

(** ** blackjack.py: BlackjackGame *)

(** What [get_action] returns: ['hit'], ['stand'], or any other string. *)
Inductive action : Type := hit | stand | invalid.

(** The five lines [determine_winner] can print. *)
Inductive announcement : Type :=
  | say_blackjack          (* "Blackjack! You win!" *)
  | say_dealer_blackjack   (* "Dealer has Blackjack. You lose." *)
  | say_you_win            (* "You win!" *)
  | say_dealer_wins        (* "Dealer wins." *)
  | say_push.              (* "Push (tie)." *)

Module BlackjackGame.
Record t : Type := mk {
  deck : Deck.t;
  counter : option CardCounter.t;
  player_hand : Hand.t;
  dealer_hand : Hand.t
}.

(** [__init__] with an existing deck, as [BlackjackBot.play_games] calls it. *)
Definition init (deck : Deck.t) (counter : option CardCounter.t) : t :=
  mk deck counter Hand.empty Hand.empty.

(** [self.player_hand.add_card(self.deck.deal(counter))] *)
Definition deal_to_player (self : t) (counter_arg : bool) : Res t :=
  '(card, d, c) ← Deck.deal (deck self)
                    (if counter_arg then counter self else None);
  Ok (mk d (if counter_arg then c else counter self)
         (Hand.add_card (player_hand self) card) (dealer_hand self)).

(** [self.dealer_hand.add_card(self.deck.deal(counter))] *)
Definition deal_to_dealer (self : t) (counter_arg : bool) : Res t :=
  '(card, d, c) ← Deck.deal (deck self)
                    (if counter_arg then counter self else None);
  Ok (mk d (if counter_arg then c else counter self)
         (player_hand self) (Hand.add_card (dealer_hand self) card)).

(** Player, dealer up-card, player: dealt with [self.counter]; the dealer's
    hole card: dealt with [None]. *)
Definition deal_initial_cards (self : t) : Res t :=
  self ← deal_to_player self true;
  self ← deal_to_dealer self true;
  self ← deal_to_player self true;
  deal_to_dealer self false.

(** [show_hands]: printing apart, it feeds the hole card [cards[1]] to the
    counter when the dealer's cards are revealed. *)
Definition show_hands (self : t) (hide_dealer_card : bool) : t :=
  if negb hide_dealer_card then
    match counter self, dealer_hand self !! 1%nat with
    | Some c, Some hole =>
        mk (deck self) (Some (CardCounter.update c hole))
           (player_hand self) (dealer_hand self)
    | _, _ => self
    end
  else self.

(** [player_turn]: [true] when the player stood, [false] when they busted.
    An invalid action asks again, so the loop takes fuel. *)
Fixpoint player_turn (fuel : nat) (get_action : t → Res action) (self : t)
  : Res (bool * t) :=
  match fuel with
  | O => Error OutOfFuel
  | S fuel =>
      a ← get_action self;
      match a with
      | hit =>
          self ← deal_to_player self true;
          if Hand.is_bust (player_hand self) then Ok (false, self)
          else player_turn fuel get_action self
      | stand => Ok (true, self)
      | invalid => player_turn fuel get_action self
      end
  end.

(** [while self.dealer_hand.get_value() < 17: ...deal(self.counter)] *)
Fixpoint dealer_draws (fuel : nat) (self : t) : Res t :=
  if bool_decide (Hand.get_value (dealer_hand self) < 17) then
    match fuel with
    | O => Error OutOfFuel
    | S fuel => self ← deal_to_dealer self true; dealer_draws fuel self
    end
  else Ok self.

(** [dealer_turn]: [true] when the dealer busted. *)
Definition dealer_turn (fuel : nat) (self : t) : Res (bool * t) :=
  let self := show_hands self false in
  self ← dealer_draws fuel self;
  Ok (Hand.is_bust (dealer_hand self), self).

(** [play]; [determine_winner] only prints. *)
Definition play (fuel : nat) (get_action : t → Res action) (self : t) : Res t :=
  self ← deal_initial_cards self;
  let self := show_hands self true in
  if Hand.is_blackjack (player_hand self) || Hand.is_blackjack (dealer_hand self)
  then Ok (show_hands self false)
  else
    '(stood, self) ← player_turn fuel get_action self;
    if negb (stood : bool) then Ok self
    else
      '(dealer_bust, self) ← dealer_turn fuel self;
      if (dealer_bust : bool) then Ok self
      else Ok (show_hands self false).

(** [determine_winner]: the line it prints. It compares the hands as they
    are and does not look at busts; [play] calls it only when nobody has
    busted. *)
Definition determine_winner (self : t) : announcement :=
  let player_val := Hand.get_value (player_hand self) in
  let dealer_val := Hand.get_value (dealer_hand self) in
  if Hand.is_blackjack (player_hand self)
     && negb (Hand.is_blackjack (dealer_hand self)) then say_blackjack
  else if Hand.is_blackjack (dealer_hand self)
          && negb (Hand.is_blackjack (player_hand self)) then
    say_dealer_blackjack
  else if bool_decide (player_val > dealer_val) then say_you_win
  else if bool_decide (player_val < dealer_val) then say_dealer_wins
  else say_push.
End BlackjackGame.

(** ** blackjack_bot.py: GameStats *)

(** The three strings [record_result] tests for. *)
Inductive result : Type := win | loss | push.

(** The dictionary [GameStats.to_dict] returns, one field per key. *)
Module StatsDict.
Record t : Type := mk {
  total_games : Z;
  wins : Z;
  losses : Z;
  pushes : Z;
  win_rate : Q;
  blackjacks : Z;
  busts : Z;
  win_pct : Q;
  loss_pct : Q;
  push_pct : Q;
  bankroll : Q;
  roi_pct : Q
}.
End StatsDict.

Module GameStats.
Record t : Type := mk {
  wins : Z;
  losses : Z;
  pushes : Z;
  blackjacks : Z;
  busts : Z;
  total_games : Z;
  bankroll : Q;
  total_bet : Z
}.

Definition init : t := mk 0 0 0 0 0 0 0%Q 0.

Definition record_result (self : t) (res : result) (bet_amount : Z)
  (is_blackjack is_bust : bool) : t :=
  let total_games := total_games self + 1 in
  let total_bet := total_bet self + bet_amount in
  match res with
  | win =>
      let wins := wins self + 1 in
      if is_blackjack then
        mk wins (losses self) (pushes self) (blackjacks self + 1) (busts self)
           total_games (bankroll self + inject_Z bet_amount * (3 # 2))%Q total_bet
      else
        mk wins (losses self) (pushes self) (blackjacks self) (busts self)
           total_games (bankroll self + inject_Z bet_amount)%Q total_bet
  | loss =>
      mk (wins self) (losses self + 1) (pushes self) (blackjacks self)
         (if is_bust then busts self + 1 else busts self)
         total_games (bankroll self - inject_Z bet_amount)%Q total_bet
  | push =>
      mk (wins self) (losses self) (pushes self + 1) (blackjacks self)
         (busts self) total_games (bankroll self) total_bet
  end.




End GameStats.

(** ** blackjack_bot.py: BlackjackBot *)

(** [x < y] on floats. *)
Definition Qlt_bool (x y : Q) : bool := negb (Qle_bool y x).

Module BlackjackBot.
Definition get_bet_size (true_count : Q) : Z :=
  if Qlt_bool true_count 0 then 0
  else if Qlt_bool true_count 1 then 1
  else if Qlt_bool true_count 2 then 2
  else if Qlt_bool true_count 3 then 5
  else if Qlt_bool true_count 4 then 10
  else if Qlt_bool true_count 5 then 25
  else 50.

(** [_record_game_result], with [self.current_bet] and [self.stats] passed
    in and the new stats returned. *)
Definition _record_game_result (current_bet : Z) (stats : GameStats.t)
  (game : BlackjackGame.t) : GameStats.t :=
  let player_val := Hand.get_value (BlackjackGame.player_hand game) in
  let dealer_val := Hand.get_value (BlackjackGame.dealer_hand game) in
  let player_bust := Hand.is_bust (BlackjackGame.player_hand game) in
  let dealer_bust := Hand.is_bust (BlackjackGame.dealer_hand game) in
  let player_bj := Hand.is_blackjack (BlackjackGame.player_hand game) in
  let dealer_bj := Hand.is_blackjack (BlackjackGame.dealer_hand game) in
  let bet := current_bet in
  if player_bust then GameStats.record_result stats loss bet false true
  else if dealer_bust then GameStats.record_result stats win bet false false
  else if player_bj && negb dealer_bj then
    GameStats.record_result stats win bet true false
  else if dealer_bj && negb player_bj then
    GameStats.record_result stats loss bet false false
  else if bool_decide (player_val > dealer_val) then
    GameStats.record_result stats win bet false false
  else if bool_decide (player_val < dealer_val) then
    GameStats.record_result stats loss bet false false
  else GameStats.record_result stats push bet false false.

(** The bot. A strategy is called with the game and, when the bot counts
    cards, with the counter ([None] otherwise). [deck] is [None] until
    [play_games] builds the first shoe; [current_bet] is set at each
    round. *)
Record t : Type := mk {
  strategy : BlackjackGame.t → option CardCounter.t → Res action;
  stats : GameStats.t;
  counter : option CardCounter.t;
  num_decks : nat;
  shuffle_threshold : Q;
  deck : option Deck.t;
  current_bet : Z
}.

(** [__init__]; [silent] only silences the printing. *)
Definition init (strategy_func : BlackjackGame.t → option CardCounter.t → Res action)
  (use_card_counting : bool) (num_decks : nat) (shuffle_threshold : Q) : t :=
  mk strategy_func GameStats.init
     (if use_card_counting then Some CardCounter.init else None)
     num_decks shuffle_threshold None 0.

(** [_bot_action_wrapper]: the bot's counter is the game's counter, the same
    object, so its current state is read from the game. *)
Definition _bot_action_wrapper (self : t) : BlackjackGame.t → Res action :=
  fun g => strategy self g (BlackjackGame.counter g).

(** The body of the loop of [play_games], [num_games] times. [deck] is
    [self.deck]; [shuffles] gives the outcome of each [random.shuffle], one
    per shoe built, and [built] counts the shoes built so far. An exception
    leaves the loop. *)
Fixpoint play_rounds (fuel : nat)
  (shuffles : nat → list Card.t → list Card.t) (built : nat)
  (num_games : nat) (self : t) (deck : Deck.t) : Res t :=
  match num_games with
  | O =>
      Ok (mk (strategy self) (stats self) (counter self) (num_decks self)
             (shuffle_threshold self) (Some deck) (current_bet self))
  | S num_games =>
      reshuffle ← Deck.needs_shuffle deck (shuffle_threshold self);
      let deck :=
        if (reshuffle : bool) then Deck.init (shuffles built) (num_decks self)
        else deck in
      let counter :=
        if (reshuffle : bool) then CardCounter.reset <$> counter self
        else counter self in
      let built := if (reshuffle : bool) then S built else built in
      let current_bet :=
        match counter with
        | Some c =>
            let cards_left := Deck.cards_remaining deck in
            let decks_remaining :=
              Qmax (inject_Z (Z.of_nat cards_left) / 52) (1 # 2) in
            get_bet_size (CardCounter.get_true_count c (Some decks_remaining))
        | None => 1
        end in
      game ← BlackjackGame.play fuel (_bot_action_wrapper self)
               (BlackjackGame.init deck counter);
      let stats := _record_game_result current_bet (stats self) game in
      play_rounds fuel shuffles built num_games
        (mk (strategy self) stats (BlackjackGame.counter game)
            (num_decks self) (shuffle_threshold self)
            (Some (BlackjackGame.deck game)) current_bet)
        (BlackjackGame.deck game)
  end.

Definition play_games (fuel : nat)
  (shuffles : nat → list Card.t → list Card.t) (self : t) (num_games : nat)
  : Res t :=
  let deck := Deck.init (shuffles 0%nat) (num_decks self) in
  let counter := CardCounter.reset <$> counter self in
  play_rounds fuel shuffles 1 num_games
    (mk (strategy self) (stats self) counter (num_decks self)
        (shuffle_threshold self) (Some deck) (current_bet self))
    deck.
End BlackjackBot.

(** ** blackjack_bot.py: the strategies *)

(** The dealer's up-card as the strategies value it: [cards[0]], then the
    same three-way test as [Card.value]. *)
Definition dealer_up_value (game : BlackjackGame.t) : Res Z :=
  match BlackjackGame.dealer_hand game !! 0%nat with
  | None => Error IndexError
  | Some dealer_up_card =>
      Ok (if bool_decide (Card.rank dealer_up_card ∈ [RJ; RQ; RK]) then 10
          else if bool_decide (Card.rank dealer_up_card = RA) then 11
          else int_of_rank (Card.rank dealer_up_card))
  end.

(** [sum(10 if c.rank in ['J','Q','K'] else (1 if c.rank == 'A' else
    int(c.rank)) for c in cards)] *)
Definition hard_value (cards : Hand.t) : Z :=
  sum_Z ((fun c => if bool_decide (Card.rank c ∈ [RJ; RQ; RK]) then 10
                   else if bool_decide (Card.rank c = RA) then 1
                   else int_of_rank (Card.rank c)) <$> cards).

(** The soft-hand test shared by [basic_strategy] and
    [card_counting_strategy]. *)
Definition is_soft (cards : Hand.t) : bool :=
  let player_value := Hand.get_value cards in
  let has_ace := existsb (fun card => bool_decide (Card.rank card = RA)) cards in
  if has_ace then
    negb (bool_decide (player_value = hard_value cards))
    && bool_decide (player_value <= 21)
  else false.

Definition num_strategy (game : BlackjackGame.t) (hit_num : Z) : action :=
  if bool_decide (Hand.get_value (BlackjackGame.player_hand game) <= hit_num)
  then hit else stand.

Definition basic_strategy (game : BlackjackGame.t) : Res action :=
  let player_value := Hand.get_value (BlackjackGame.player_hand game) in
  dealer_value ← dealer_up_value game;
  if is_soft (BlackjackGame.player_hand game) then
    if bool_decide (player_value >= 19) then Ok stand
    else if bool_decide (player_value = 18) then
      if bool_decide (dealer_value ∈ [9; 10; 11]) then Ok hit else Ok stand
    else Ok hit
  else if bool_decide (player_value >= 17) then Ok stand
  else if bool_decide (player_value <= 11) then Ok hit
  else if bool_decide (player_value = 12) then
    if bool_decide (dealer_value ∈ [4; 5; 6]) then Ok stand else Ok hit
  else if bool_decide (player_value ∈ [13; 14; 15; 16]) then
    if bool_decide (dealer_value ∈ [2; 3; 4; 5; 6]) then Ok stand else Ok hit
  else Ok stand.

(** The true count [card_counting_strategy] computes at each call, from the
    cards left in the game's deck ([game.deck] always has
    [cards_remaining]). *)
Definition strategy_true_count (game : BlackjackGame.t)
  (counter : CardCounter.t) : Q :=
  let cards_left := Deck.cards_remaining (BlackjackGame.deck game) in
  let decks_remaining := Qmax (inject_Z (Z.of_nat cards_left) / 52) (1 # 2) in
  CardCounter.get_true_count counter (Some decks_remaining).

Definition card_counting_strategy (game : BlackjackGame.t)
  (counter : CardCounter.t) : Res action :=
  let player_value := Hand.get_value (BlackjackGame.player_hand game) in
  dealer_value ← dealer_up_value game;
  let true_count := strategy_true_count game counter in
  if is_soft (BlackjackGame.player_hand game) then
    if bool_decide (player_value >= 19) then Ok stand
    else if bool_decide (player_value = 18) then
      if bool_decide (dealer_value ∈ [9; 10; 11]) then Ok hit else Ok stand
    else Ok hit
  else if bool_decide (player_value >= 17) then Ok stand
  else if bool_decide (player_value <= 11) then Ok hit
  else if bool_decide (player_value = 16) then
    if bool_decide (dealer_value <= 6) then Ok stand
    else if bool_decide (dealer_value ∈ [7; 8]) then Ok hit
    else if bool_decide (dealer_value = 9) then
      if Qle_bool 5 true_count then Ok stand else Ok hit
    else
      if Qle_bool 0 true_count then Ok stand else Ok hit
  else if bool_decide (player_value = 15) then
    if bool_decide (dealer_value ∈ [2; 3; 4; 5; 6]) then Ok stand
    else if bool_decide (dealer_value = 10) then
      if Qle_bool 4 true_count then Ok stand else Ok hit
    else Ok hit
  else if bool_decide (player_value = 14) then
    if bool_decide (dealer_value ∈ [2; 3; 4; 5; 6]) then Ok stand else Ok hit
  else if bool_decide (player_value = 13) then
    if bool_decide (dealer_value = 2) then
      if Qle_bool true_count (-1) then Ok hit else Ok stand
    else if bool_decide (dealer_value = 3) then
      if Qle_bool true_count (-2) then Ok hit else Ok stand
    else if bool_decide (dealer_value ∈ [4; 5; 6]) then Ok stand
    else Ok hit
  else if bool_decide (player_value = 12) then
    if bool_decide (dealer_value = 4) then
      if Qle_bool true_count 0 then Ok hit else Ok stand
    else if bool_decide (dealer_value = 5) then
      if Qle_bool true_count (-5) then Ok hit else Ok stand
    else if bool_decide (dealer_value = 6) then
      if Qle_bool true_count (-1) then Ok hit else Ok stand
    else if bool_decide (dealer_value = 3) then
      if Qle_bool 2 true_count then Ok stand else Ok hit
    else if bool_decide (dealer_value = 2) then
      if Qle_bool 3 true_count then Ok stand else Ok hit
    else Ok hit
  else Ok stand.

(** ** Definitions that follow the specification's words *)

(** Every total of a hand with each ace counted as 1 or as 11. *)
Fixpoint totals (cards : Hand.t) : list Z :=
  match cards with
  | [] => [0]
  | c :: cards =>
      if bool_decide (Card.rank c = RA) then
        ((fun t => 1 + t) <$> totals cards) ++ ((fun t => 11 + t) <$> totals cards)
      else (fun t => Card.value c + t) <$> totals cards
  end.

(** The Hi-Lo tag of a rank: +1 for 2-6, -1 for 10, J, Q, K, A, 0 for 7-9. *)
Definition hilo (r : Rank) : Z :=
  match r with
  | R2 | R3 | R4 | R5 | R6 => 1
  | R7 | R8 | R9 => 0
  | R10 | RJ | RQ | RK | RA => -1
  end.

Definition card_hilo (card : Card.t) : Z := hilo (Card.rank card).

(** One [deal()] call on a shoe, with or without a counter, and the states
    a shoe goes through in its lifetime: built and shuffled, then dealt
    from. *)
Definition deal_step (d d' : Deck.t) : Prop :=
  ∃ counter card counter', Deck.deal d counter = Ok (card, d', counter').

Definition shoe_state (shuffle : list Card.t → list Card.t) (num_decks : nat)
  (d : Deck.t) : Prop :=
  rtc deal_step (Deck.init shuffle num_decks) d.
(** What one dealt card changes in a game. *)
Definition dealt (to_player counted : bool) (card : Card.t)
  (g g' : BlackjackGame.t) : Prop :=
  Deck.cards (BlackjackGame.deck g) =
    Deck.cards (BlackjackGame.deck g') ++ [card] ∧
  BlackjackGame.player_hand g' =
    (if to_player then BlackjackGame.player_hand g ++ [card]
     else BlackjackGame.player_hand g) ∧
  BlackjackGame.dealer_hand g' =
    (if to_player then BlackjackGame.dealer_hand g
     else BlackjackGame.dealer_hand g ++ [card]) ∧
  BlackjackGame.counter g' =
    (if counted then (λ c, CardCounter.update c card) <$> BlackjackGame.counter g
     else BlackjackGame.counter g).

(** The outcome of a round, by the precedence of the specification. *)
Inductive outcome : Type := PlayerBlackjack | PlayerWins | DealerWins | Push.

Global Instance outcome_eq_dec : EqDecision outcome.
Proof. solve_decision. Defined.

Definition classify (player dealer : Hand.t) : outcome :=
  if Hand.is_blackjack player && negb (Hand.is_blackjack dealer) then
    PlayerBlackjack
  else if Hand.is_blackjack dealer && negb (Hand.is_blackjack player) then
    DealerWins
  else if Hand.is_bust player then DealerWins
  else if Hand.is_bust dealer then PlayerWins
  else if bool_decide (Hand.get_value player > Hand.get_value dealer) then
    PlayerWins
  else if bool_decide (Hand.get_value player < Hand.get_value dealer) then
    DealerWins
  else Push.

(** What an outcome adds to the bankroll. *)
Definition payoff (o : outcome) (bet : Z) : Q :=
  match o with
  | PlayerBlackjack => inject_Z bet * (3 # 2)
  | PlayerWins => inject_Z bet
  | DealerWins => - inject_Z bet
  | Push => 0
  end.

(** A scripted shoe for worked rounds. [deal] pops from the end: the
    player gets 10 and 6, the dealer shows 7 over a 9, then come a 5 or a
    king, and a king. *)
Definition scripted_shoe (ranks : list Rank) : Deck.t :=
  Deck.mk (imap (λ i r, Card.mk Spades r i) ranks) 1 52.

Definition shoe_player_21 : Deck.t := scripted_shoe [RK; R5; R9; R6; R7; R10].
Definition shoe_player_bust : Deck.t := scripted_shoe [R5; RK; R9; R6; R7; R10].

(** A hand is soft when an ace is still counted as 11 after the
    reductions of [get_value], and the total is at most 21. *)
Definition soft_hand (cards : Hand.t) : bool :=
  bool_decide (0 < (Hand.reduce (Hand.nominal cards) (Hand.aces cards)).2)%nat
  && bool_decide (Hand.get_value cards <= 21).

(** The basic-strategy chart of the specification, by hand kind, player
    total and dealer up-card value (ace = 11). *)
Definition chart (soft : bool) (value dealer : Z) : action :=
  if soft then
    if bool_decide (19 <= value) then stand
    else if bool_decide (value = 18) then
      if bool_decide (9 <= dealer <= 11) then hit else stand
    else hit
  else
    if bool_decide (17 <= value) then stand
    else if bool_decide (value <= 11) then hit
    else if bool_decide (value = 12) then
      if bool_decide (4 <= dealer <= 6) then stand else hit
    else
      if bool_decide (2 <= dealer <= 6) then stand else hit.

(** The index plays of the specification for hard totals 12 to 16. *)
Definition index_chart (value dealer : Z) (true_count : Q) : action :=
  if bool_decide (value = 16) then
    if bool_decide (dealer <= 6) then stand
    else if bool_decide (7 <= dealer <= 8) then hit
    else if bool_decide (dealer = 9) then
      if Qle_bool 5 true_count then stand else hit
    else if Qle_bool 0 true_count then stand else hit
  else if bool_decide (value = 15) then
    if bool_decide (2 <= dealer <= 6) then stand
    else if bool_decide (dealer = 10) then
      if Qle_bool 4 true_count then stand else hit
    else hit
  else if bool_decide (value = 14) then
    if bool_decide (2 <= dealer <= 6) then stand else hit
  else if bool_decide (value = 13) then
    if bool_decide (dealer = 2) then
      if Qle_bool true_count (-1) then hit else stand
    else if bool_decide (dealer = 3) then
      if Qle_bool true_count (-2) then hit else stand
    else if bool_decide (4 <= dealer <= 6) then stand
    else hit
  else
    if bool_decide (dealer = 2) then
      if Qle_bool 3 true_count then stand else hit
    else if bool_decide (dealer = 3) then
      if Qle_bool 2 true_count then stand else hit
    else if bool_decide (dealer = 4) then
      if Qle_bool true_count 0 then hit else stand
    else if bool_decide (dealer = 5) then
      if Qle_bool true_count (-5) then hit else stand
    else if bool_decide (dealer = 6) then
      if Qle_bool true_count (-1) then hit else stand
    else hit.

(** Games for worked decisions: the player's ranks against an up-card, with
    [left] cards left in the shoe. *)
Definition decision_game (player : list Rank) (up : Rank) (left : nat)
  : BlackjackGame.t :=
  BlackjackGame.mk
    (Deck.mk (replicate left (Card.mk Clubs R7 0)) 1 52) None
    (imap (λ i r, Card.mk Spades r (S i)) player)
    [Card.mk Hearts up 100].

(** What every counter built by [reset] and [update] satisfies. *)
Definition counter_ok (c : CardCounter.t) : Prop :=
  CardCounter.cards_seen c = Z.of_nat (size (CardCounter.seen_cards c)) ∧
  - CardCounter.cards_seen c <= CardCounter.running_count c
    <= CardCounter.cards_seen c.

(** One call of [record_result]: the result, the bet and the two flags;
    and the statistics after a list of calls on fresh statistics. *)
Definition record_call : Type := result * Z * bool * bool.

Definition record_one (s : GameStats.t) (call : record_call) : GameStats.t :=
  let '(res, bet_amount, is_blackjack, is_bust) := call in
  GameStats.record_result s res bet_amount is_blackjack is_bust.

Definition record_all (calls : list record_call) : GameStats.t :=
  foldl record_one GameStats.init calls.

(** What the statistics satisfy as long as no bet is negative. *)
Definition stats_ok (s : GameStats.t) : Prop :=
  GameStats.wins s + GameStats.losses s + GameStats.pushes s
    = GameStats.total_games s ∧
  0 <= GameStats.blackjacks s <= GameStats.wins s ∧
  0 <= GameStats.busts s <= GameStats.losses s ∧
  0 <= GameStats.pushes s ∧
  0 <= GameStats.total_bet s ∧
  (- inject_Z (GameStats.total_bet s) <= GameStats.bankroll s
   <= (3 # 2) * inject_Z (GameStats.total_bet s))%Q.

(** * Properties *)

(** ** Hand value *)

Section HandValue.
Implicit Types (cards : Hand.t) (c : Card.t).

Lemma nominal_cons c cards :
  Hand.nominal (c :: cards) = Card.value c + Hand.nominal cards.
Proof. reflexivity. Qed.

Lemma aces_cons c cards :
  Hand.aces (c :: cards) =
  if decide (Card.rank c = RA) then S (Hand.aces cards) else Hand.aces cards.
Proof.
  unfold Hand.aces. rewrite filter_cons. by destruct (decide _).
Qed.

Lemma value_ace c : Card.rank c = RA → Card.value c = 11.
Proof. unfold Card.value. by intros ->. Qed.

Lemma value_bounds c : 2 <= Card.value c <= 11.
Proof. unfold Card.value. destruct (Card.rank c); simpl; lia. Qed.

(** The loop stops at the first ace count [k] whose total fits, or when the
    aces run out. *)
Lemma reduce_spec (a : nat) : ∀ v : Z,
  ∃ k : nat,
    (k ≤ a)%nat ∧
    Hand.reduce v a = (v - 10 * Z.of_nat k, (a - k)%nat) ∧
    (v - 10 * Z.of_nat k <= 21 ∨ k = a) ∧
    (∀ j : nat, (j < k)%nat → 21 < v - 10 * Z.of_nat j).
Proof.
  induction a as [|a IH]; intros v.
  - exists 0%nat. simpl. repeat split; try lia. f_equal; lia.
  - simpl. case_bool_decide as Hv.
    + destruct (IH (v - 10)) as (k & Hk & Hr & Hstop & Hbefore).
      exists (S k). repeat split; try lia.
      * rewrite Hr. f_equal; lia.
      * intros [|j] Hj; [lia|]. specialize (Hbefore j). lia.
    + exists 0%nat. repeat split; try lia. f_equal; lia.
Qed.

(** The totals of a hand are its nominal sum less 10 for each ace counted
    as 1. *)
Lemma elem_of_totals cards (t : Z) :
  t ∈ totals cards ↔
  ∃ k : nat, (k ≤ Hand.aces cards)%nat ∧ t = Hand.nominal cards - 10 * Z.of_nat k.
Proof.
  revert t. induction cards as [|c cards IH]; intros t.
  - simpl. rewrite list_elem_of_singleton. split.
    + intros ->. exists 0%nat. split; [lia|reflexivity].
    + intros (k & Hk & ->). unfold Hand.aces in Hk. simpl in Hk.
      assert (k = 0%nat) as -> by lia. reflexivity.
  - rewrite nominal_cons, aces_cons. simpl totals.
    case_bool_decide as Hace.
    + rewrite decide_True by done. rewrite (value_ace c Hace).
      rewrite elem_of_app, !list_elem_of_fmap. split.
      * intros [(t' & -> & Ht')|(t' & -> & Ht')];
          apply IH in Ht' as (k & Hk & ->).
        -- exists (S k). split; lia.
        -- exists k. split; lia.
      * intros (k & Hk & ->). destruct k as [|k].
        -- right. exists (Hand.nominal cards). split; [lia|].
           apply IH. exists 0%nat. split; lia.
        -- left. exists (Hand.nominal cards - 10 * Z.of_nat k). split; [lia|].
           apply IH. exists k. split; lia.
    + rewrite decide_False by done. rewrite list_elem_of_fmap. split.
      * intros (t' & -> & Ht'). apply IH in Ht' as (k & Hk & ->).
        exists k. split; lia.
      * intros (k & Hk & ->).
        exists (Hand.nominal cards - 10 * Z.of_nat k). split; [lia|].
        apply IH. exists k. split; lia.
Qed.

Lemma hard_value_nominal cards :
  hard_value cards = Hand.nominal cards - 10 * Z.of_nat (Hand.aces cards).
Proof.
  induction cards as [|c cards IH]; [reflexivity|].
  rewrite nominal_cons, aces_cons.
  change (hard_value (c :: cards)) with
    ((if bool_decide (Card.rank c ∈ [RJ; RQ; RK]) then 10
      else if bool_decide (Card.rank c = RA) then 1
      else int_of_rank (Card.rank c)) + hard_value cards).
  rewrite IH. unfold Card.value.
  destruct (Card.rank c); simpl; lia.
Qed.

Lemma get_value_reduce cards :
  ∃ k : nat,
    (k ≤ Hand.aces cards)%nat ∧
    Hand.reduce (Hand.nominal cards) (Hand.aces cards) =
      (Hand.nominal cards - 10 * Z.of_nat k, (Hand.aces cards - k)%nat) ∧
    Hand.get_value cards = Hand.nominal cards - 10 * Z.of_nat k ∧
    (Hand.get_value cards <= 21 ∨ k = Hand.aces cards) ∧
    (∀ j : nat, (j < k)%nat → 21 < Hand.nominal cards - 10 * Z.of_nat j).
Proof.
  destruct (reduce_spec (Hand.aces cards) (Hand.nominal cards))
    as (k & Hk & Hr & Hstop & Hbefore).
  exists k. unfold Hand.get_value. rewrite Hr. simpl. done.
Qed.
End HandValue.

(** C1. The value of a hand is one of its totals (each ace counted as 1 or
    as 11); it is the result of the reduction loop on the nominal sum; when
    some total is at most 21 it is the largest such total; when every total
    exceeds 21 it is the least total, the one with all aces counted as 1,
    and exceeds 21. *)
Theorem get_value_best_total (cards : Hand.t) :
  Hand.get_value cards = (Hand.reduce (Hand.nominal cards) (Hand.aces cards)).1 ∧
  Hand.get_value cards ∈ totals cards ∧
  ((∃ t, t ∈ totals cards ∧ t <= 21) →
     Hand.get_value cards <= 21 ∧
     ∀ t, t ∈ totals cards → t <= 21 → t <= Hand.get_value cards) ∧
  ((∀ t, t ∈ totals cards → 21 < t) →
     Hand.get_value cards = hard_value cards ∧
     21 < Hand.get_value cards ∧
     ∀ t, t ∈ totals cards → Hand.get_value cards <= t).
Proof.
  destruct (get_value_reduce cards) as (k & Hk & _ & Hv & Hstop & Hbefore).
  assert (Hin : Hand.get_value cards ∈ totals cards).
  { apply elem_of_totals. by exists k. }
  split; [reflexivity|]. split; [exact Hin|]. split.
  - intros (t & Ht & Hle). apply elem_of_totals in Ht as (j & Hj & ->).
    assert (Hfit : Hand.get_value cards <= 21).
    { destruct Hstop as [ | -> ]; [done|]. lia. }
    split; [exact Hfit|].
    intros t (i & Hi & ->)%elem_of_totals Hle'.
    destruct (decide (i < k)%nat) as [Hlt|]; [|lia].
    specialize (Hbefore i Hlt). lia.
  - intros Hall. pose proof (Hall _ Hin) as Hbig.
    destruct Hstop as [ | -> ]; [lia|].
    rewrite hard_value_nominal. split; [exact Hv|]. split; [exact Hbig|].
    intros t (i & Hi & ->)%elem_of_totals. lia.
Qed.

(** The examples of the specification: ace, ace, 9 is 21, not 31; three
    tens are 30, a bust. *)
Example get_value_examples :
  Hand.get_value ((λ r, Card.mk Spades r 0) <$> [RA; RA; R9]) = 21 ∧
  totals ((λ r, Card.mk Spades r 0) <$> [RA; RA; R9]) = [11; 21; 21; 31] ∧
  Hand.get_value ((λ r, Card.mk Spades r 0) <$> [R10; R10; R10]) = 30 ∧
  Hand.is_bust ((λ r, Card.mk Spades r 0) <$> [R10; R10; R10]) = true.
Proof. split_and!; by vm_compute. Qed.

(** ** The Hi-Lo counter *)

Section Counter.
Implicit Types (c : CardCounter.t) (card : Card.t) (l : list Card.t).

Lemma update_seen c card :
  Card.ident card ∈ CardCounter.seen_cards c → CardCounter.update c card = c.
Proof. intros Hin. unfold CardCounter.update. by rewrite bool_decide_eq_true_2. Qed.

Lemma update_fresh c card :
  Card.ident card ∉ CardCounter.seen_cards c →
  CardCounter.update c card =
  CardCounter.mk (CardCounter.running_count c + card_hilo card)
                 (CardCounter.cards_seen c + 1)
                 ({[ Card.ident card ]} ∪ CardCounter.seen_cards c).
Proof.
  intros Hnin. unfold CardCounter.update. rewrite bool_decide_eq_false_2 by done.
  unfold card_hilo. destruct (Card.rank card); simpl; f_equal; lia.
Qed.

Lemma sum_Z_cons (x : Z) (l : list Z) : sum_Z (x :: l) = x + sum_Z l.
Proof. reflexivity. Qed.

(** Feeding cards with pairwise distinct, unseen identities counts each. *)
Lemma foldl_update_fresh l : ∀ c,
  NoDup (Card.ident <$> l) →
  (∀ card, card ∈ l → Card.ident card ∉ CardCounter.seen_cards c) →
  foldl CardCounter.update c l =
  CardCounter.mk
    (CardCounter.running_count c + sum_Z (card_hilo <$> l))
    (CardCounter.cards_seen c + Z.of_nat (length l))
    (list_to_set (Card.ident <$> l) ∪ CardCounter.seen_cards c).
Proof.
  induction l as [|card l IH]; intros c Hnd Hfresh.
  - destruct c. cbn. f_equal; [lia|lia|set_solver].
  - rewrite fmap_cons in Hnd. apply NoDup_cons in Hnd as [Hhd Hnd].
    simpl foldl. rewrite update_fresh by (apply Hfresh; left).
    rewrite IH; [|done|].
    + cbn [CardCounter.running_count CardCounter.cards_seen
           CardCounter.seen_cards].
      rewrite !fmap_cons, list_to_set_cons, sum_Z_cons, length_cons.
      f_equal; [lia|lia|set_solver].
    + intros card' Hin. simpl. apply not_elem_of_union. split.
      * rewrite elem_of_singleton. intros Heq. apply Hhd.
        rewrite <- Heq. apply list_elem_of_fmap. by exists card'.
      * apply Hfresh. by right.
Qed.

Lemma sum_Z_app (l1 l2 : list Z) : sum_Z (l1 ++ l2) = sum_Z l1 + sum_Z l2.
Proof. induction l1 as [|x l1 IH]; simpl; [done|]. unfold sum_Z in *. simpl. lia. Qed.

Lemma sum_Z_Permutation (l1 l2 : list Z) : l1 ≡ₚ l2 → sum_Z l1 = sum_Z l2.
Proof. unfold sum_Z. induction 1; simpl; lia. Qed.

(** One deck nets to zero: 20 low, 12 neutral and 20 high cards. *)
Lemma hilo_decks (start num_decks : nat) :
  sum_Z ((λ sr, hilo sr.2) <$>
         (_ ← seq start num_decks; suit ← Deck.suits; rank ← Deck.ranks;
          [(suit, rank)])) = 0.
Proof.
  revert start. induction num_decks as [|n IH]; intros start; [reflexivity|].
  simpl seq. rewrite bind_cons, fmap_app, sum_Z_app, IH. reflexivity.
Qed.

Lemma build_idents (num_decks : nat) :
  Card.ident <$> Deck.build num_decks = seq 0 (length (Deck.build num_decks)).
Proof.
  unfold Deck.build. rewrite fmap_imap, length_imap.
  rewrite <- (list_fmap_id (seq 0 _)). apply (imap_seq_0 _ id).
Qed.

Lemma build_ranks (num_decks : nat) :
  card_hilo <$> Deck.build num_decks =
  (λ sr, hilo sr.2) <$> Deck.combinations num_decks.
Proof.
  unfold Deck.build. rewrite fmap_imap.
  apply (imap_const (λ sr : Suit * Rank, hilo sr.2)).
Qed.

Lemma length_decks (start num_decks : nat) :
  length (_ ← seq start num_decks; suit ← Deck.suits; rank ← Deck.ranks;
          [(suit, rank)]) = (52 * num_decks)%nat.
Proof.
  revert start. induction num_decks as [|n IH]; intros start; [reflexivity|].
  simpl seq. rewrite bind_cons, length_app, IH. simpl length. lia.
Qed.

Lemma length_build (num_decks : nat) :
  length (Deck.build num_decks) = (52 * num_decks)%nat.
Proof. unfold Deck.build. rewrite length_imap. apply length_decks. Qed.
End Counter.

(** C3. A reset counter that is fed every card of a freshly built and
    shuffled shoe of [num_decks] decks, each once and in any order, ends
    with a running count of 0 (and has seen [52 * num_decks] cards). *)
Theorem shoe_balance (shuffle : list Card.t → list Card.t) (num_decks : nat)
    (c0 : CardCounter.t) (observed : list Card.t) :
  (∀ l, shuffle l ≡ₚ l) →
  observed ≡ₚ Deck.cards (Deck.init shuffle num_decks) →
  let c := foldl CardCounter.update (CardCounter.reset c0) observed in
  CardCounter.running_count c = 0 ∧
  CardCounter.cards_seen c = 52 * Z.of_nat num_decks.
Proof.
  intros Hshuffle Hobs. simpl in Hobs. rewrite Hshuffle in Hobs.
  intros c. subst c. rewrite foldl_update_fresh.
  - simpl. rewrite (Permutation_length Hobs), length_build.
    rewrite (sum_Z_Permutation _ (card_hilo <$> Deck.build num_decks))
      by (by apply fmap_Permutation).
    rewrite build_ranks. unfold Deck.combinations. rewrite hilo_decks. lia.
  - rewrite Hobs, build_idents. apply NoDup_seq.
  - intros card _. simpl. set_solver.
Qed.

(** The shoe dealt in the order the shuffle left it, here reversed. *)
Lemma shoe_balance_witness :
  let c := foldl CardCounter.update (CardCounter.reset CardCounter.init)
             (Deck.build 2) in
  CardCounter.running_count c = 0 ∧ CardCounter.cards_seen c = 52 * 2.
Proof.
  apply (shoe_balance reverse 2 CardCounter.init (Deck.build 2)).
  - intros l. apply reverse_Permutation.
  - simpl. symmetry. apply reverse_Permutation.
Defined.

(** C4. [update] counts a card identity once. A card whose identity is in
    the observed set changes nothing, so a second call with the same
    identity leaves the counter as the first call left it. A card whose
    identity is new is added to the observed set, increments [cards_seen]
    and moves the running count by its Hi-Lo tag: +1 for 2-6, -1 for
    10, J, Q, K, A, and 0 for 7-9. *)
Theorem update_idempotent (c : CardCounter.t) (card card' : Card.t) :
  (Card.ident card ∈ CardCounter.seen_cards c → CardCounter.update c card = c) ∧
  (Card.ident card' = Card.ident card →
     CardCounter.update (CardCounter.update c card) card' =
     CardCounter.update c card) ∧
  (Card.ident card ∉ CardCounter.seen_cards c →
     CardCounter.seen_cards (CardCounter.update c card) =
       {[ Card.ident card ]} ∪ CardCounter.seen_cards c ∧
     CardCounter.cards_seen (CardCounter.update c card) =
       CardCounter.cards_seen c + 1 ∧
     CardCounter.running_count (CardCounter.update c card) =
       CardCounter.running_count c +
       (if bool_decide (Card.rank card ∈ [R2; R3; R4; R5; R6]) then 1
        else if bool_decide (Card.rank card ∈ [R10; RJ; RQ; RK; RA]) then -1
        else 0) ∧
     (Card.rank card ∈ [R7; R8; R9] →
        CardCounter.running_count (CardCounter.update c card) =
        CardCounter.running_count c)).
Proof.
  split; [apply update_seen|]. split.
  - intros Hid. apply update_seen. rewrite Hid.
    destruct (decide (Card.ident card ∈ CardCounter.seen_cards c)) as [Hin|Hnin].
    + by rewrite update_seen.
    + rewrite update_fresh by done. simpl. set_solver.
  - intros Hnin. rewrite update_fresh by done. simpl.
    repeat split. 
    + unfold card_hilo. destruct (Card.rank card); simpl; lia.
    + intros Hr. unfold card_hilo. destruct (Card.rank card); simpl; try lia;
        exfalso; set_solver.
Qed.

(** ** True count and bet sizing *)

Section Rationals.
Local Open Scope Q_scope.

Lemma Qle_bool_false (x y : Q) : Qle_bool x y = false ↔ y < x.
Proof.
  rewrite <- not_true_iff_false, Qle_bool_iff. split; [apply Qnot_le_lt|apply Qlt_not_le].
Qed.

Lemma Qlt_bool_true (x y : Q) : Qlt_bool x y = true ↔ x < y.
Proof. unfold Qlt_bool. rewrite negb_true_iff. apply Qle_bool_false. Qed.

Lemma Qlt_bool_false (x y : Q) : Qlt_bool x y = false ↔ y <= x.
Proof. unfold Qlt_bool. rewrite negb_false_iff. apply Qle_bool_iff. Qed.

Lemma Qmax_half_pos (x : Q) : 0 < Qmax x (1 # 2).
Proof.
  apply Qlt_le_trans with (1 # 2); [reflexivity|]. apply Q.le_max_r.
Qed.

Lemma Qmax_above (x y : Q) : y <= x → Qmax x y = x.
Proof.
  intros Hle. unfold Qmax, GenericMinMax.gmax.
  destruct (x ?= y) eqn:Hcmp; try reflexivity.
  apply Qlt_alt in Hcmp. exfalso. apply (Qlt_not_le _ _ Hcmp Hle).
Qed.
End Rationals.

(** Turn the float comparisons of a goal into facts for [lra]. *)
Ltac Qcases :=
  repeat match goal with
  | |- context [Qlt_bool ?x ?y] =>
      let H := fresh "Hq" in
      destruct (Qlt_bool x y) eqn:H;
      [apply Qlt_bool_true in H | apply Qlt_bool_false in H]
  | |- context [Qle_bool ?x ?y] =>
      let H := fresh "Hq" in
      destruct (Qle_bool x y) eqn:H;
      [apply Qle_bool_iff in H | apply Qle_bool_false in H]
  end.

(** C2 as stated fails: a supplied estimate of 0.3 decks is not raised to
    0.5. With a running count of 3 the true count is 3 / 0.3 = 10, not
    3 / max(0.3, 0.5) = 6. *)
Lemma true_count_not_clamped_below_half :
  (CardCounter.get_true_count (CardCounter.mk 3 0 ∅) (Some (3 # 10)%Q) == 10)%Q ∧
  ¬ (CardCounter.get_true_count (CardCounter.mk 3 0 ∅) (Some (3 # 10)%Q)
     == inject_Z 3 / Qmax (3 # 10) (1 # 2))%Q.
Proof. split; [reflexivity|]. vm_compute. discriminate. Qed.

(** C2, amended. A supplied [decks_remaining] that is zero or negative is
    replaced by 0.5; a positive one is the divisor as it is (so from 0.5
    upwards the divisor is [max(decks_remaining, 0.5)]); without the
    argument the divisor is [max((52 - cards_seen)/52, 0.5)]. The result
    is the exact quotient of the running count by the divisor. *)
Theorem get_true_count_divisor (c : CardCounter.t) (d : Q) :
  ((d <= 0)%Q →
     CardCounter.get_true_count c (Some d) =
     (inject_Z (CardCounter.running_count c) / (1 # 2))%Q) ∧
  ((0 < d)%Q →
     CardCounter.get_true_count c (Some d) =
     (inject_Z (CardCounter.running_count c) / d)%Q) ∧
  ((1 # 2 <= d)%Q →
     CardCounter.get_true_count c (Some d) =
     (inject_Z (CardCounter.running_count c) / Qmax d (1 # 2))%Q) ∧
  CardCounter.get_true_count c None =
    (inject_Z (CardCounter.running_count c) /
     Qmax (inject_Z (52 - CardCounter.cards_seen c) / 52) (1 # 2))%Q.
Proof.
  unfold CardCounter.get_true_count. repeat split.
  - intros Hd. apply Qle_bool_iff in Hd. by rewrite Hd.
  - intros Hd. apply Qle_bool_false in Hd. by rewrite Hd.
  - intros Hd. rewrite Qmax_above by done.
    assert (Hpos : (0 < d)%Q) by lra.
    apply Qle_bool_false in Hpos. by rewrite Hpos.
  - pose proof (Qmax_half_pos (inject_Z (52 - CardCounter.cards_seen c) / 52))
      as Hpos.
    apply Qle_bool_false in Hpos. by rewrite Hpos.
Qed.

(** C6. The bet is 0 below a true count of 0, then 1, 2, 5, 10, 25 on the
    unit steps up to 5, and 50 from 5 on; it never decreases as the true
    count grows; the listed sample points hold. *)
Theorem get_bet_size_ramp :
  (∀ t : Q,
     ((t < 0)%Q → BlackjackBot.get_bet_size t = 0) ∧
     ((0 <= t < 1)%Q → BlackjackBot.get_bet_size t = 1) ∧
     ((1 <= t < 2)%Q → BlackjackBot.get_bet_size t = 2) ∧
     ((2 <= t < 3)%Q → BlackjackBot.get_bet_size t = 5) ∧
     ((3 <= t < 4)%Q → BlackjackBot.get_bet_size t = 10) ∧
     ((4 <= t < 5)%Q → BlackjackBot.get_bet_size t = 25) ∧
     ((5 <= t)%Q → BlackjackBot.get_bet_size t = 50)) ∧
  (∀ t1 t2 : Q,
     (t1 <= t2)%Q → BlackjackBot.get_bet_size t1 <= BlackjackBot.get_bet_size t2) ∧
  BlackjackBot.get_bet_size (- (1 # 2)) = 0 ∧
  BlackjackBot.get_bet_size (1 # 2) = 1 ∧
  BlackjackBot.get_bet_size (3 # 2) = 2 ∧
  BlackjackBot.get_bet_size (5 # 2) = 5 ∧
  BlackjackBot.get_bet_size (7 # 2) = 10 ∧
  BlackjackBot.get_bet_size (9 # 2) = 25 ∧
  BlackjackBot.get_bet_size 6 = 50.
Proof.
  split; [|split; [|by vm_compute]].
  - intros t. unfold BlackjackBot.get_bet_size.
    repeat split; intros Ht; Qcases; solve [reflexivity | lra].
  - intros t1 t2 Hle. unfold BlackjackBot.get_bet_size.
    Qcases; solve [lia | lra].
Qed.

(** ** The shoe *)

Section Shoe.
Implicit Types (d : Deck.t) (l : list Card.t).

Lemma pop_Ok {A : Type} (l rest : list A) (x : A) :
  pop l = Ok (x, rest) ↔ l = rest ++ [x].
Proof.
  unfold pop. destruct l as [|y l] using rev_ind.
  - simpl. split; [done|]. by destruct rest.
  - rewrite last_snoc, removelast_last. split.
    + by intros [= -> ->].
    + by intros [-> ->]%app_inj_tail.
Qed.

Lemma pop_Error {A : Type} (l : list A) (e : exn) :
  pop l = Error e → l = [] ∧ e = IndexError.
Proof.
  unfold pop. destruct l as [|y l] using rev_ind.
  - simpl. by intros [= <-].
  - by rewrite last_snoc.
Qed.

Lemma deal_Ok d counter card d' counter' :
  Deck.deal d counter = Ok (card, d', counter') ↔
  Deck.cards d = Deck.cards d' ++ [card] ∧
  Deck.num_decks d' = Deck.num_decks d ∧
  Deck.total_cards d' = Deck.total_cards d ∧
  counter' = (λ c, CardCounter.update c card) <$> counter.
Proof.
  unfold Deck.deal. destruct (pop (Deck.cards d)) as [[x rest]|e] eqn:Hpop.
  - apply pop_Ok in Hpop. simpl. destruct d'; simpl. split.
    + intros [= -> <- <- <- <-]. done.
    + intros (Hc & -> & -> & ->). rewrite Hpop in Hc.
      apply app_inj_tail in Hc as [-> ->]. done.
  - simpl. split; [done|]. intros (Hc & _).
    apply pop_Error in Hpop as [Hnil _]. rewrite Hnil in Hc. by destruct (Deck.cards d').
Qed.

Lemma deal_step_inv d d' :
  deal_step d d' →
  Deck.total_cards d' = Deck.total_cards d ∧
  S (length (Deck.cards d')) = length (Deck.cards d).
Proof.
  intros (counter & card & counter' & (Hc & _ & Ht & _)%deal_Ok).
  split; [done|]. rewrite Hc, length_app. simpl. lia.
Qed.

Lemma deals_inv d d' :
  rtc deal_step d d' →
  Deck.total_cards d' = Deck.total_cards d ∧
  (length (Deck.cards d') ≤ length (Deck.cards d))%nat.
Proof.
  induction 1 as [|d1 d2 d3 Hstep _ [IHt IHl]]; [done|].
  apply deal_step_inv in Hstep as [Ht Hl]. split; [congruence|lia].
Qed.

Lemma percent_le (a b t : Z) :
  0 < t → a <= b →
  (inject_Z a / inject_Z t * 100 <= inject_Z b / inject_Z t * 100)%Q.
Proof.
  intros Ht Hab. apply Qmult_le_compat_r; [|done].
  apply Qmult_le_compat_r; [by rewrite <- Zle_Qle|].
  apply Qinv_le_0_compat. change 0%Q with (inject_Z 0).
  rewrite <- Zle_Qle. lia.
Qed.

Lemma percent_full (t : Z) : 0 < t → (inject_Z t / inject_Z t * 100 == 100)%Q.
Proof.
  intros Ht. field. change 0%Q with (inject_Z 0). rewrite inject_Z_injective. lia.
Qed.
End Shoe.

(** C9. In every state of a shoe of at least one deck, the cards left are
    between 0 and [total_cards], [penetration()] is
    [(total_cards - remaining) / total_cards * 100], lies between 0 and 100
    and is exactly 100 when no card is left; [needs_shuffle] compares it
    with the threshold; after any further [deal()] calls the penetration is
    no lower. Both queries are functions of the shoe: they return no new
    state. *)
Theorem penetration_nondecreasing (shuffle : list Card.t → list Card.t)
    (num_decks : nat) (d : Deck.t) :
  (∀ l, shuffle l ≡ₚ l) →
  (1 ≤ num_decks)%nat →
  shoe_state shuffle num_decks d →
  let total := Z.of_nat (Deck.total_cards d) in
  let remaining := Z.of_nat (Deck.cards_remaining d) in
  0 <= remaining <= total ∧
  ∃ p : Q,
    Deck.penetration d = Ok p ∧
    p = (inject_Z (total - remaining) / inject_Z total * 100)%Q ∧
    (0 <= p <= 100)%Q ∧
    (remaining = 0 → (p == 100)%Q) ∧
    (∀ threshold, Deck.needs_shuffle d threshold = Ok (Qle_bool threshold p)) ∧
    (∀ d', rtc deal_step d d' →
       ∃ p', Deck.penetration d' = Ok p' ∧ (p <= p')%Q).
Proof.
  intros Hshuffle Hn Hstate total remaining.
  apply deals_inv in Hstate as [Ht Hl]. simpl in Ht, Hl.
  rewrite Hshuffle in Hl. rewrite length_build in Ht, Hl.
  assert (Htotal : 0 < total) by (subst total; lia).
  assert (Hrem : 0 <= remaining <= total).
  { subst total remaining. unfold Deck.cards_remaining. lia. }
  split; [exact Hrem|].
  assert (Hpen : ∀ d', Deck.total_cards d' = Deck.total_cards d →
    Deck.penetration d' =
    Ok (inject_Z (total - Z.of_nat (length (Deck.cards d'))) / inject_Z total * 100)%Q).
  { intros d' Hd'. unfold Deck.penetration. rewrite Hd'.
    rewrite bool_decide_eq_false_2 by lia. done. }
  eexists. split; [by apply Hpen|]. split; [reflexivity|]. split; [|split; [|split]].
  - split.
    + apply (Qle_trans _ (inject_Z 0 / inject_Z total * 100)).
      * apply Qle_lteq. right. unfold Qdiv. ring.
      * apply percent_le; [done|]. unfold Deck.cards_remaining in *. lia.
    + apply (Qle_trans _ (inject_Z total / inject_Z total * 100)).
      * apply percent_le; [done|]. unfold Deck.cards_remaining in *. lia.
      * apply Qle_lteq. right. by apply percent_full.
  - intros Hz. unfold Deck.cards_remaining in *.
    replace (total - Z.of_nat (length (Deck.cards d))) with total
      by (subst remaining; lia).
    by apply percent_full.
  - intros threshold. unfold Deck.needs_shuffle. by rewrite Hpen.
  - intros d' [Ht' Hl']%deals_inv. eexists. split; [by apply Hpen|].
    apply percent_le; [done|]. lia.
Qed.

Lemma penetration_nondecreasing_witness :
  let d := Deck.init reverse 1 in
  let total := Z.of_nat (Deck.total_cards d) in
  let remaining := Z.of_nat (Deck.cards_remaining d) in
  0 <= remaining <= total ∧
  ∃ p : Q,
    Deck.penetration d = Ok p ∧
    p = (inject_Z (total - remaining) / inject_Z total * 100)%Q ∧
    (0 <= p <= 100)%Q ∧
    (remaining = 0 → (p == 100)%Q) ∧
    (∀ threshold, Deck.needs_shuffle d threshold = Ok (Qle_bool threshold p)) ∧
    (∀ d', rtc deal_step d d' →
       ∃ p', Deck.penetration d' = Ok p' ∧ (p <= p')%Q).
Proof.
  apply (penetration_nondecreasing reverse 1 (Deck.init reverse 1)).
  - intros l. apply reverse_Permutation.
  - lia.
  - apply rtc_refl.
Defined.

(** ** One round *)

Section Round.
Implicit Types (g : BlackjackGame.t) (c : CardCounter.t) (card : Card.t).

Lemma bind_Ok {A B : Type} (m : Res A) (k : A → Res B) (b : B) :
  m ≫= k = Ok b ↔ ∃ a, m = Ok a ∧ k a = Ok b.
Proof.
  destruct m as [a|e]; simpl; split.
  - intros Hk. by exists a.
  - by intros (a' & [= <-] & Hk).
  - done.
  - by intros (a' & [=] & _).
Qed.

Lemma deal_to_player_inv g counted g' :
  BlackjackGame.deal_to_player g counted = Ok g' →
  ∃ card, dealt true counted card g g'.
Proof.
  unfold BlackjackGame.deal_to_player.
  intros ([[card d] c'] & Hdeal & [= <-])%bind_Ok.
  apply deal_Ok in Hdeal as (Hc & _ & _ & ->).
  exists card. unfold dealt. simpl. by destruct counted.
Qed.

Lemma deal_to_dealer_inv g counted g' :
  BlackjackGame.deal_to_dealer g counted = Ok g' →
  ∃ card, dealt false counted card g g'.
Proof.
  unfold BlackjackGame.deal_to_dealer.
  intros ([[card d] c'] & Hdeal & [= <-])%bind_Ok.
  apply deal_Ok in Hdeal as (Hc & _ & _ & ->).
  exists card. unfold dealt. simpl. by destruct counted.
Qed.

Lemma deal_initial_cards_inv deck counter g' :
  BlackjackGame.deal_initial_cards (BlackjackGame.init deck counter) = Ok g' →
  ∃ p1 up p2 hole,
    Deck.cards deck = Deck.cards (BlackjackGame.deck g') ++ [hole; p2; up; p1] ∧
    BlackjackGame.player_hand g' = [p1; p2] ∧
    BlackjackGame.dealer_hand g' = [up; hole] ∧
    BlackjackGame.counter g' =
      (λ c, foldl CardCounter.update c [p1; up; p2]) <$> counter.
Proof.
  unfold BlackjackGame.deal_initial_cards.
  intros (g1 & (p1 & Hc1 & Hp1 & Hd1 & Hk1)%deal_to_player_inv &
          (g2 & (up & Hc2 & Hp2 & Hd2 & Hk2)%deal_to_dealer_inv &
          (g3 & (p2 & Hc3 & Hp3 & Hd3 & Hk3)%deal_to_player_inv &
           (hole & Hc4 & Hp4 & Hd4 & Hk4)%deal_to_dealer_inv)%bind_Ok)%bind_Ok)%bind_Ok.
  exists p1, up, p2, hole. simpl in *.
  rewrite Hc1, Hc2, Hc3, Hc4, Hp4, Hp3, Hp2, Hp1, Hd4, Hd3, Hd2, Hd1.
  rewrite Hk4, Hk3, Hk2, Hk1. rewrite <- !(assoc_L (++)). simpl.
  repeat split. by destruct counter.
Qed.

Lemma show_hands_hands g hide :
  BlackjackGame.player_hand (BlackjackGame.show_hands g hide) =
    BlackjackGame.player_hand g ∧
  BlackjackGame.dealer_hand (BlackjackGame.show_hands g hide) =
    BlackjackGame.dealer_hand g.
Proof.
  unfold BlackjackGame.show_hands.
  destruct hide, (BlackjackGame.counter g), (BlackjackGame.dealer_hand g !! 1%nat);
    done.
Qed.

(** The player's turn only draws cards for the player, each fed to the
    counter; it ends on the first bust or on a stand. *)
Lemma player_turn_inv get_action fuel : ∀ g stood g',
  BlackjackGame.player_turn fuel get_action g = Ok (stood, g') →
  ∃ drawn,
    Deck.cards (BlackjackGame.deck g) =
      Deck.cards (BlackjackGame.deck g') ++ reverse drawn ∧
    BlackjackGame.player_hand g' = BlackjackGame.player_hand g ++ drawn ∧
    BlackjackGame.dealer_hand g' = BlackjackGame.dealer_hand g ∧
    BlackjackGame.counter g' =
      (λ c, foldl CardCounter.update c drawn) <$> BlackjackGame.counter g ∧
    (if stood
     then drawn = [] ∨ Hand.is_bust (BlackjackGame.player_hand g') = false
     else drawn ≠ [] ∧ Hand.is_bust (BlackjackGame.player_hand g') = true).
Proof.
  induction fuel as [|fuel IH]; intros g stood g'; [done|].
  simpl. intros (a & Ha & Hrun)%bind_Ok. destruct a.
  - apply bind_Ok in Hrun as (g1 & (card & Hc & Hp & Hd & Hk)%deal_to_player_inv & Hrun).
    destruct (Hand.is_bust (BlackjackGame.player_hand g1)) eqn:Hbust.
    + injection Hrun as <- <-. exists [card]. rewrite Hk.
      repeat split; try done; by destruct (BlackjackGame.counter g).
    + apply IH in Hrun as (drawn & Hc' & Hp' & Hd' & Hk' & Hend).
      exists (card :: drawn). rewrite Hc, Hc', Hp', Hp, Hd', Hd, Hk', Hk.
      rewrite reverse_cons, <- !(assoc_L (++)). simpl.
      rewrite Hp', Hp, <- (assoc_L (++)) in Hend. simpl in Hend.
      rewrite Hp in Hbust.
      split; [done|]. split; [done|]. split; [done|].
      split; [by destruct (BlackjackGame.counter g)|].
      destruct stood.
      * right. by destruct Hend as [->|Hnb].
      * split; [done|]. by destruct Hend.
  - injection Hrun as <- <-. exists []. rewrite reverse_nil, !app_nil_r.
    split_and!; [done|done|done|by destruct (BlackjackGame.counter g)|by left].
  - by apply IH.
Qed.

Lemma dealer_draws_inv fuel : ∀ g g',
  BlackjackGame.dealer_draws fuel g = Ok g' →
  ∃ drawn,
    BlackjackGame.player_hand g' = BlackjackGame.player_hand g ∧
    BlackjackGame.dealer_hand g' = BlackjackGame.dealer_hand g ++ drawn.
Proof.
  induction fuel as [|fuel IH]; intros g g'; simpl; case_bool_decide; try done.
  - intros [= <-]. exists []. by rewrite app_nil_r.
  - intros (g1 & (card & Hc & Hp & Hd & Hk)%deal_to_dealer_inv &
            (drawn & Hp' & Hd')%IH)%bind_Ok.
    exists (card :: drawn). rewrite Hp', Hp, Hd', Hd, <- (assoc_L (++)). done.
  - intros [= <-]. exists []. by rewrite app_nil_r.
Qed.

Lemma dealer_turn_inv fuel g dealer_bust g' :
  BlackjackGame.dealer_turn fuel g = Ok (dealer_bust, g') →
  ∃ drawn,
    BlackjackGame.player_hand g' = BlackjackGame.player_hand g ∧
    BlackjackGame.dealer_hand g' = BlackjackGame.dealer_hand g ++ drawn.
Proof.
  unfold BlackjackGame.dealer_turn.
  intros (g1 & (drawn & Hp & Hd)%dealer_draws_inv & [= _ <-])%bind_Ok.
  exists drawn. destruct (show_hands_hands g false) as [Hp' Hd'].
  by rewrite Hp, Hd, Hp', Hd'.
Qed.

Lemma two_cards_value (c1 c2 : Card.t) : Hand.get_value [c1; c2] <= 21.
Proof.
  destruct c1 as [s1 r1 i1], c2 as [s2 r2 i2].
  destruct r1, r2; vm_compute; discriminate.
Qed.

Lemma two_cards_not_bust (c1 c2 : Card.t) : Hand.is_bust [c1; c2] = false.
Proof.
  unfold Hand.is_bust. apply bool_decide_eq_false_2.
  pose proof (two_cards_value c1 c2). lia.
Qed.

Lemma long_hand_not_blackjack (cards drawn : Hand.t) :
  length cards = 2%nat → drawn ≠ [] → Hand.is_blackjack (cards ++ drawn) = false.
Proof.
  intros Hlen Hne. unfold Hand.is_blackjack.
  rewrite bool_decide_eq_false_2; [done|].
  rewrite length_app. destruct drawn; [done|]. simpl. lia.
Qed.
End Round.

Section Play.
Implicit Types (g : BlackjackGame.t) (c : CardCounter.t).

(** How a round that returns has gone: the four cards of the initial deal,
    then a natural, or a player bust, or the dealer's turn. *)
Lemma play_inv fuel get_action deck counter g' :
  BlackjackGame.play fuel get_action (BlackjackGame.init deck counter) = Ok g' →
  ∃ p1 up p2 hole drawn dealer_drawn,
    BlackjackGame.player_hand g' = [p1; p2] ++ drawn ∧
    BlackjackGame.dealer_hand g' = [up; hole] ++ dealer_drawn ∧
    ((Hand.is_blackjack [p1; p2] || Hand.is_blackjack [up; hole] = true ∧
      drawn = [] ∧ dealer_drawn = [])
     ∨
     (Hand.is_blackjack [p1; p2] = false ∧ Hand.is_blackjack [up; hole] = false ∧
      Hand.is_bust ([p1; p2] ++ drawn) = false)
     ∨
     (Hand.is_blackjack [p1; p2] = false ∧ Hand.is_blackjack [up; hole] = false ∧
      Hand.is_bust ([p1; p2] ++ drawn) = true ∧
      drawn ≠ [] ∧ dealer_drawn = [] ∧
      Deck.cards deck =
        Deck.cards (BlackjackGame.deck g') ++ reverse drawn ++ [hole; p2; up; p1] ∧
      BlackjackGame.counter g' =
        (λ c, foldl CardCounter.update c ([p1; up; p2] ++ drawn)) <$> counter)).
Proof.
  unfold BlackjackGame.play.
  intros (g1 & (p1 & up & p2 & hole & Hc1 & Hp1 & Hd1 & Hk1)%deal_initial_cards_inv
             & Hrun)%bind_Ok.
  exists p1, up, p2, hole.
  change (BlackjackGame.show_hands g1 true) with g1 in Hrun.
  rewrite Hp1, Hd1 in Hrun.
  destruct (Hand.is_blackjack [p1; p2] || Hand.is_blackjack [up; hole]) eqn:Hnat.
  - injection Hrun as <-. exists [], [].
    destruct (show_hands_hands g1 false) as [Hp' Hd'].
    rewrite Hp', Hd', Hp1, Hd1. split; [done|]. split; [done|]. by left.
  - apply orb_false_elim in Hnat as [Hnp Hnd].
    apply bind_Ok in Hrun as ([stood g2] & Hturn & Hrun).
    apply player_turn_inv in Hturn as (drawn & Hc2 & Hp2 & Hd2 & Hk2 & Hend).
    rewrite Hp1 in Hp2. rewrite Hd1 in Hd2. exists drawn.
    destruct stood; simpl in Hrun.
    + apply bind_Ok in Hrun as ([dealer_bust g3] & Hdealer & Hrun).
      apply dealer_turn_inv in Hdealer as (dealer_drawn & Hp3 & Hd3).
      rewrite Hp2 in Hp3. rewrite Hd2 in Hd3. exists dealer_drawn.
      assert (Hnb : Hand.is_bust ([p1; p2] ++ drawn) = false).
      { destruct Hend as [->|Hnb]; [apply two_cards_not_bust|by rewrite <- Hp2]. }
      destruct dealer_bust; injection Hrun as <-.
      * rewrite Hp3, Hd3. split; [done|]. split; [done|]. right. by left.
      * destruct (show_hands_hands g3 false) as [Hp' Hd'].
        rewrite Hp', Hd', Hp3, Hd3. split; [done|]. split; [done|].
        right. by left.
    + injection Hrun as <-. exists []. destruct Hend as [Hne Hbust].
      rewrite Hp2 in Hbust. split; [done|]. split; [done|].
      right. right. split_and!; try done.
      * by rewrite Hc1, Hc2, <- (assoc_L (++)).
      * rewrite Hk2, Hk1. by destruct counter.
Qed.
End Play.

(** C5. For every round that [play] completes, the result recorded by
    [_record_game_result] is the one the specification's precedence gives
    (player blackjack, dealer blackjack, player bust, dealer bust, then the
    higher value, a push on equal values): the bankroll gains 1.5 bets on a
    natural-blackjack win, one bet on any other win, loses one bet on a
    loss and is unchanged on a push; [total_bet] grows by the bet and the
    win, loss and push tallies follow the outcome. *)
Theorem record_game_result_precedence (fuel : nat)
    (get_action : BlackjackGame.t → Res action) (deck : Deck.t)
    (counter : option CardCounter.t) (g' : BlackjackGame.t)
    (bet : Z) (stats : GameStats.t) :
  BlackjackGame.play fuel get_action (BlackjackGame.init deck counter) = Ok g' →
  let o := classify (BlackjackGame.player_hand g') (BlackjackGame.dealer_hand g') in
  let stats' := BlackjackBot._record_game_result bet stats g' in
  (GameStats.bankroll stats' == GameStats.bankroll stats + payoff o bet)%Q ∧
  GameStats.total_bet stats' = GameStats.total_bet stats + bet ∧
  GameStats.total_games stats' = GameStats.total_games stats + 1 ∧
  GameStats.wins stats' =
    GameStats.wins stats +
    (if bool_decide (o ∈ [PlayerBlackjack; PlayerWins]) then 1 else 0) ∧
  GameStats.losses stats' =
    GameStats.losses stats + (if bool_decide (o = DealerWins) then 1 else 0) ∧
  GameStats.pushes stats' =
    GameStats.pushes stats + (if bool_decide (o = Push) then 1 else 0).
Proof.
  intros (p1 & up & p2 & hole & drawn & dealer_drawn & Hp & Hd & Hcase)%play_inv.
  intros o stats'. subst o stats'.
  unfold BlackjackBot._record_game_result, classify. rewrite Hp, Hd.
  assert (Hbj : Hand.is_blackjack ([p1; p2] ++ drawn) ||
                Hand.is_blackjack ([up; hole] ++ dealer_drawn) = true →
                Hand.is_bust ([p1; p2] ++ drawn) = false ∧
                Hand.is_bust ([up; hole] ++ dealer_drawn) = false).
  { destruct Hcase as [(_ & -> & ->)|[(Hnp & Hnd & _)|(Hnp & Hnd & _ & Hne & -> & _)]].
    - intros _. split; apply two_cards_not_bust.
    - intros Hbj. exfalso. apply orb_true_iff in Hbj as [Hbj|Hbj].
      + destruct drawn; [simpl in Hbj; congruence|].
        by rewrite long_hand_not_blackjack in Hbj.
      + destruct dealer_drawn; [simpl in Hbj; congruence|].
        by rewrite long_hand_not_blackjack in Hbj.
    - intros Hbj. exfalso. apply orb_true_iff in Hbj as [Hbj|Hbj].
      + by rewrite long_hand_not_blackjack in Hbj.
      + simpl in Hbj. congruence. }
  destruct (Hand.is_blackjack ([p1; p2] ++ drawn)) eqn:Hpb,
           (Hand.is_blackjack ([up; hole] ++ dealer_drawn)) eqn:Hdb;
    try (destruct Hbj as [-> ->]; [done|]); simpl;
    repeat (match goal with
            | |- context [if ?b then _ else _] => destruct b eqn:?
            end; simpl);
    split_and!; try done; try lia; try ring.
Qed.

(** The player hits 16 against a 7 and draws a 5, the dealer then busts
    on 26: a plain win of one bet. *)
Lemma record_game_result_precedence_witness :
  ∃ g', BlackjackGame.play 10 basic_strategy
          (BlackjackGame.init shoe_player_21 None) = Ok g' ∧
  let o := classify (BlackjackGame.player_hand g') (BlackjackGame.dealer_hand g') in
  let stats' := BlackjackBot._record_game_result 1 GameStats.init g' in
  (GameStats.bankroll stats' == GameStats.bankroll GameStats.init + payoff o 1)%Q ∧
  GameStats.total_bet stats' = GameStats.total_bet GameStats.init + 1 ∧
  GameStats.total_games stats' = GameStats.total_games GameStats.init + 1 ∧
  GameStats.wins stats' =
    GameStats.wins GameStats.init +
    (if bool_decide (o ∈ [PlayerBlackjack; PlayerWins]) then 1 else 0) ∧
  GameStats.losses stats' =
    GameStats.losses GameStats.init + (if bool_decide (o = DealerWins) then 1 else 0) ∧
  GameStats.pushes stats' =
    GameStats.pushes GameStats.init + (if bool_decide (o = Push) then 1 else 0).
Proof.
  eexists. split.
  - vm_compute. reflexivity.
  - apply (record_game_result_precedence 10 basic_strategy shoe_player_21 None).
    vm_compute. reflexivity.
Defined.

(** Why C5 is about completed rounds: on hands that no round ends with (a
    player natural against a dealer who drew to a bust) the order of the
    tests in [_record_game_result] shows, the win is paid as a plain one. *)
Example record_game_result_off_round :
  let player := (λ r, Card.mk Spades r 0) <$> [RA; RK] in
  let dealer := (λ r, Card.mk Hearts r 0) <$> [R10; R6; R10] in
  let g := BlackjackGame.mk (scripted_shoe []) None player dealer in
  classify player dealer = PlayerBlackjack ∧
  (payoff PlayerBlackjack 2 == 3)%Q ∧
  (GameStats.bankroll (BlackjackBot._record_game_result 2 GameStats.init g) == 2)%Q.
Proof. split_and!; by vm_compute. Qed.

(** C10. In a round that ends with the player bust, the dealer holds the
    up-card and the hole card only, and the counter has been fed exactly
    the player's two cards, the up-card and the player's drawn cards, in
    that order. When the shoe's cards have distinct identities that the
    counter has not seen, the hole card's identity is not in the observed
    set, [cards_seen] has grown by three plus the number of drawn cards and
    the running count by the Hi-Lo tags of those cards. *)
Theorem player_bust_hole_card_uncounted (fuel : nat)
    (get_action : BlackjackGame.t → Res action) (deck : Deck.t)
    (c0 : CardCounter.t) (g' : BlackjackGame.t) :
  BlackjackGame.play fuel get_action (BlackjackGame.init deck (Some c0)) = Ok g' →
  Hand.is_bust (BlackjackGame.player_hand g') = true →
  ∃ p1 up p2 hole drawn,
    Deck.cards deck =
      Deck.cards (BlackjackGame.deck g') ++ reverse drawn ++ [hole; p2; up; p1] ∧
    BlackjackGame.player_hand g' = [p1; p2] ++ drawn ∧
    BlackjackGame.dealer_hand g' = [up; hole] ∧
    (let seen := [p1; up; p2] ++ drawn in
     let c' := foldl CardCounter.update c0 seen in
     BlackjackGame.counter g' = Some c' ∧
     (NoDup (Card.ident <$> Deck.cards deck) →
      (∀ card, card ∈ Deck.cards deck →
         Card.ident card ∉ CardCounter.seen_cards c0) →
      (Card.ident hole ∉ CardCounter.seen_cards c') ∧
      CardCounter.cards_seen c' =
        CardCounter.cards_seen c0 + 3 + Z.of_nat (length drawn) ∧
      CardCounter.running_count c' =
        CardCounter.running_count c0 + sum_Z (card_hilo <$> seen))).
Proof.
  intros (p1 & up & p2 & hole & drawn & dealer_drawn & Hp & Hd & Hcase)%play_inv
         Hbust.
  rewrite Hp in Hbust.
  destruct Hcase as [(_ & -> & _)|[(_ & _ & Hnb)|(_ & _ & _ & Hne & -> & Hc & Hk)]].
  { simpl in Hbust. by rewrite two_cards_not_bust in Hbust. }
  { congruence. }
  exists p1, up, p2, hole, drawn.
  split; [done|]. split; [done|]. split; [by rewrite Hd|].
  intros seen c'. split; [done|]. intros Hnd Hfresh.
  assert (Hperm : Deck.cards deck ≡ₚ
                  hole :: seen ++ Deck.cards (BlackjackGame.deck g')).
  { rewrite Hc, reverse_Permutation. subst seen.
    rewrite (comm (++) (Deck.cards _)), (comm (++) drawn). simpl. constructor.
    apply (Permutation_app_tail _ (reverse_Permutation [p1; up; p2])). }
  rewrite Hperm, fmap_cons, fmap_app in Hnd.
  apply NoDup_cons in Hnd as [Hhole Hnd]. apply NoDup_app in Hnd as (Hnd & _ & _).
  subst c'. rewrite foldl_update_fresh; [|done|].
  - cbn [CardCounter.running_count CardCounter.cards_seen CardCounter.seen_cards].
    split_and!.
    + apply not_elem_of_union. split.
      * rewrite elem_of_list_to_set. intros Hin. apply Hhole.
        apply elem_of_app. by left.
      * apply Hfresh. rewrite Hperm. by left.
    + subst seen. rewrite length_app. simpl. lia.
    + done.
  - intros card Hin. apply Hfresh. rewrite Hperm. right.
    apply elem_of_app. by left.
Qed.

(** The player hits 16 against a 7, draws a king and busts: the counter
    has seen 10, 7, 6 and the king, not the 9 in the hole. *)
Lemma player_bust_hole_card_uncounted_witness :
  ∃ g', BlackjackGame.play 10 basic_strategy
          (BlackjackGame.init shoe_player_bust (Some CardCounter.init)) = Ok g' ∧
  Hand.is_bust (BlackjackGame.player_hand g') = true ∧
  ∃ p1 up p2 hole drawn,
    Deck.cards shoe_player_bust =
      Deck.cards (BlackjackGame.deck g') ++ reverse drawn ++ [hole; p2; up; p1] ∧
    BlackjackGame.player_hand g' = [p1; p2] ++ drawn ∧
    BlackjackGame.dealer_hand g' = [up; hole] ∧
    (let seen := [p1; up; p2] ++ drawn in
     let c' := foldl CardCounter.update CardCounter.init seen in
     BlackjackGame.counter g' = Some c' ∧
     (NoDup (Card.ident <$> Deck.cards shoe_player_bust) →
      (∀ card, card ∈ Deck.cards shoe_player_bust →
         Card.ident card ∉ CardCounter.seen_cards CardCounter.init) →
      (Card.ident hole ∉ CardCounter.seen_cards c') ∧
      CardCounter.cards_seen c' =
        CardCounter.cards_seen CardCounter.init + 3 + Z.of_nat (length drawn) ∧
      CardCounter.running_count c' =
        CardCounter.running_count CardCounter.init + sum_Z (card_hilo <$> seen))).
Proof.
  eexists. split; [|split].
  - vm_compute. reflexivity.
  - vm_compute. reflexivity.
  - apply (player_bust_hole_card_uncounted 10 basic_strategy shoe_player_bust
             CardCounter.init); vm_compute; reflexivity.
Defined.

(** ** The strategies *)

Section Strategies.
Implicit Types (g : BlackjackGame.t) (cards : Hand.t).

Lemma has_ace_aces cards :
  existsb (λ card, bool_decide (Card.rank card = RA)) cards =
  bool_decide (0 < Hand.aces cards)%nat.
Proof.
  induction cards as [|c cards IH]; [done|].
  rewrite aces_cons. simpl. rewrite IH.
  destruct (decide (Card.rank c = RA)) as [Hace|Hace].
  - by rewrite (bool_decide_eq_true_2 _ Hace).
  - by rewrite (bool_decide_eq_false_2 _ Hace).
Qed.

(** The test of the code (the value differs from the all-aces-as-1 sum)
    finds the hands with an ace still counted as 11. *)
Lemma is_soft_soft_hand cards : is_soft cards = soft_hand cards.
Proof.
  unfold is_soft, soft_hand. rewrite has_ace_aces, hard_value_nominal.
  destruct (get_value_reduce cards) as (k & Hk & Hr & Hv & Hstop & _).
  rewrite Hr, Hv in *. simpl.
  repeat case_bool_decide; simpl; try done; lia.
Qed.

Lemma dealer_up_value_Ok g up :
  BlackjackGame.dealer_hand g !! 0%nat = Some up →
  dealer_up_value g = Ok (Card.value up).
Proof. unfold dealer_up_value, Card.value. by intros ->. Qed.
End Strategies.

(** C8. With a dealer up-card on the table, [basic_strategy] returns the
    chart's play for the player's hand kind (soft: an ace still counted as
    11 and a total of at most 21), total and the up-card value (ace = 11):
    soft hands stand from 19, stand on 18 unless the dealer shows 9, 10 or
    ace, hit below; hard hands stand from 17, hit up to 11, stand on 12
    against 4-6 and on 13-16 against 2-6. *)
Theorem basic_strategy_chart (g : BlackjackGame.t) (up : Card.t) :
  BlackjackGame.dealer_hand g !! 0%nat = Some up →
  basic_strategy g =
  Ok (chart (soft_hand (BlackjackGame.player_hand g))
            (Hand.get_value (BlackjackGame.player_hand g))
            (Card.value up)).
Proof.
  intros Hup. unfold basic_strategy. rewrite (dealer_up_value_Ok g up Hup).
  simpl. rewrite is_soft_soft_hand. unfold chart.
  pose proof (value_bounds up) as Hb.
  destruct (soft_hand _);
    repeat (case_bool_decide; try done; try lia;
            repeat match goal with
            | H : _ ∈ _ |- _ => rewrite ?elem_of_cons, ?elem_of_nil in H
            | H : ¬ (_ ∈ _) |- _ => rewrite ?elem_of_cons, ?elem_of_nil in H
            end; try lia).
Qed.

(** Player 16 against a dealer 10: hit. *)
Lemma basic_strategy_chart_witness :
  basic_strategy (decision_game [R10; R6] R10 40) =
  Ok (chart (soft_hand (BlackjackGame.player_hand (decision_game [R10; R6] R10 40)))
            (Hand.get_value (BlackjackGame.player_hand (decision_game [R10; R6] R10 40)))
            (Card.value (Card.mk Hearts R10 100))).
Proof. apply (basic_strategy_chart (decision_game [R10; R6] R10 40)). reflexivity. Defined.

(** The scenarios of the specification. *)
Example basic_strategy_scenarios :
  basic_strategy (decision_game [R10; R6] R10 40) = Ok hit ∧
  basic_strategy (decision_game [R10; R2] R5 40) = Ok stand ∧
  basic_strategy (decision_game [RA; R7] R9 40) = Ok hit ∧
  (∀ up, basic_strategy (decision_game [RA; R8] up 40) = Ok stand).
Proof.
  split_and!; by vm_compute.
Qed.

(** The live true count: the running count over the decks left in the
    shoe, never taken below half a deck. The guard of [get_true_count]
    against a divisor of zero or less never fires here. *)
Lemma strategy_true_count_live (g : BlackjackGame.t) (counter : CardCounter.t) :
  strategy_true_count g counter =
  (inject_Z (CardCounter.running_count counter) /
   Qmax (inject_Z (Z.of_nat (length (Deck.cards (BlackjackGame.deck g)))) / 52)
        (1 # 2))%Q.
Proof.
  unfold strategy_true_count, CardCounter.get_true_count, Deck.cards_remaining.
  pose proof (Qmax_half_pos
    (inject_Z (Z.of_nat (length (Deck.cards (BlackjackGame.deck g)))) / 52)) as Hpos.
  apply Qle_bool_false in Hpos. by rewrite Hpos.
Qed.

(** C7. On a hard total from 12 to 16, [card_counting_strategy] plays the
    index chart at the true count it computes at that call from the cards
    left in the shoe (running count over [max(cards_left/52, 0.5)]). In
    particular: 16 against 9 stands exactly from a true count of 5, 16
    against 10 or ace exactly from 0, and 15 against 10 exactly from 4. *)
Theorem card_counting_index_plays (g : BlackjackGame.t)
    (counter : CardCounter.t) (up : Card.t) :
  BlackjackGame.dealer_hand g !! 0%nat = Some up →
  soft_hand (BlackjackGame.player_hand g) = false →
  12 <= Hand.get_value (BlackjackGame.player_hand g) <= 16 →
  let value := Hand.get_value (BlackjackGame.player_hand g) in
  let dealer := Card.value up in
  let true_count :=
    (inject_Z (CardCounter.running_count counter) /
     Qmax (inject_Z (Z.of_nat (Deck.cards_remaining (BlackjackGame.deck g))) / 52)
          (1 # 2))%Q in
  card_counting_strategy g counter = Ok (index_chart value dealer true_count) ∧
  (value = 16 → dealer = 9 →
     (card_counting_strategy g counter = Ok stand ↔ (5 <= true_count)%Q) ∧
     (card_counting_strategy g counter = Ok hit ↔ (true_count < 5)%Q)) ∧
  (value = 16 → dealer = 10 ∨ dealer = 11 →
     (card_counting_strategy g counter = Ok stand ↔ (0 <= true_count)%Q) ∧
     (card_counting_strategy g counter = Ok hit ↔ (true_count < 0)%Q)) ∧
  (value = 15 → dealer = 10 →
     (card_counting_strategy g counter = Ok stand ↔ (4 <= true_count)%Q) ∧
     (card_counting_strategy g counter = Ok hit ↔ (true_count < 4)%Q)).
Proof.
  intros Hup Hhard Hrange value dealer true_count.
  assert (Hplay : card_counting_strategy g counter =
                  Ok (index_chart value dealer true_count)).
  { unfold card_counting_strategy. rewrite (dealer_up_value_Ok g up Hup).
    simpl. rewrite is_soft_soft_hand, Hhard, strategy_true_count_live.
    fold value dealer. unfold Deck.cards_remaining in true_count.
    fold true_count. unfold index_chart.
    pose proof (value_bounds up) as Hb. fold dealer in Hb.
    assert (Hr : 12 <= value <= 16) by exact Hrange.
    clearbody value dealer true_count.
    repeat (case_bool_decide; try done; try lia;
            repeat match goal with
            | H : _ ∈ _ |- _ => rewrite ?elem_of_cons, ?elem_of_nil in H
            | H : ¬ (_ ∈ _) |- _ => rewrite ?elem_of_cons, ?elem_of_nil in H
            end; try lia; try by destruct (Qle_bool _ _)). }
  split; [exact Hplay|]. rewrite Hplay. unfold index_chart.
  clearbody value dealer true_count.
  split_and!; intros -> Hd; [|destruct Hd|]; subst dealer; simpl;
    destruct (Qle_bool _ true_count) eqn:Hq;
    (apply Qle_bool_iff in Hq || apply Qle_bool_false in Hq);
    (split; split; intros H; try done; try lra).
Qed.

(** Hard 16 against a 9 with a full deck left and a running count of 5. *)
Lemma card_counting_index_plays_witness :
  let g := decision_game [R10; R6] R9 52 in
  let counter := CardCounter.mk 5 0 ∅ in
  let up := Card.mk Hearts R9 100 in
  let value := Hand.get_value (BlackjackGame.player_hand g) in
  let dealer := Card.value up in
  let true_count :=
    (inject_Z (CardCounter.running_count counter) /
     Qmax (inject_Z (Z.of_nat (Deck.cards_remaining (BlackjackGame.deck g))) / 52)
          (1 # 2))%Q in
  card_counting_strategy g counter = Ok (index_chart value dealer true_count) ∧
  (value = 16 → dealer = 9 →
     (card_counting_strategy g counter = Ok stand ↔ (5 <= true_count)%Q) ∧
     (card_counting_strategy g counter = Ok hit ↔ (true_count < 5)%Q)) ∧
  (value = 16 → dealer = 10 ∨ dealer = 11 →
     (card_counting_strategy g counter = Ok stand ↔ (0 <= true_count)%Q) ∧
     (card_counting_strategy g counter = Ok hit ↔ (true_count < 0)%Q)) ∧
  (value = 15 → dealer = 10 →
     (card_counting_strategy g counter = Ok stand ↔ (4 <= true_count)%Q) ∧
     (card_counting_strategy g counter = Ok hit ↔ (true_count < 4)%Q)).
Proof.
  intros g counter up.
  apply (card_counting_index_plays g counter up).
  - reflexivity.
  - vm_compute. reflexivity.
  - vm_compute. split; discriminate.
Defined.

(** The scenarios of the specification: 16 against 9 stands at a true
    count of 5, where basic strategy hits, and hits at 4. *)
Example card_counting_scenarios :
  let g := decision_game [R10; R6] R9 52 in
  (strategy_true_count g (CardCounter.mk 5 0 ∅) == 5)%Q ∧
  card_counting_strategy g (CardCounter.mk 5 0 ∅) = Ok stand ∧
  basic_strategy g = Ok hit ∧
  (strategy_true_count g (CardCounter.mk 4 0 ∅) == 4)%Q ∧
  card_counting_strategy g (CardCounter.mk 4 0 ∅) = Ok hit.
Proof. split_and!; by vm_compute. Qed.

(** * Further properties of the code *)

(** ** Dealing from the shoe *)

(** X1. [deal] fails only on an empty shoe, with [IndexError]; otherwise it
    hands out the last card of the list, leaves the other cards in place,
    keeps [total_cards] and [num_decks], and feeds the card to the counter
    when one is given. *)
Theorem deal_last_or_IndexError (d : Deck.t) (counter : option CardCounter.t) :
  (Deck.cards d = [] → Deck.deal d counter = Error IndexError) ∧
  (∀ rest card, Deck.cards d = rest ++ [card] →
     Deck.deal d counter =
     Ok (card, Deck.mk rest (Deck.num_decks d) (Deck.total_cards d),
         (λ c, CardCounter.update c card) <$> counter)) ∧
  (∀ e, Deck.deal d counter = Error e → Deck.cards d = [] ∧ e = IndexError).
Proof.
  split_and!.
  - intros Hnil. unfold Deck.deal. by rewrite Hnil.
  - intros rest card Hc. apply deal_Ok. by rewrite Hc.
  - intros e. unfold Deck.deal.
    destruct (pop (Deck.cards d)) as [[x rest]|e'] eqn:Hpop; [done|].
    simpl. intros [= <-]. by apply pop_Error in Hpop.
Qed.

Section FreshShoe.
(** A shoe is built with each suit and rank once per deck. *)
Lemma count_build (num_decks : nat) (s : Suit) (r : Rank) :
  length (filter (λ card, Card.suit card = s ∧ Card.rank card = r)
                 (Deck.build num_decks)) = num_decks.
Proof.
  unfold Deck.build.
  assert (Hfilter : ∀ (l : list (Suit * Rank)) (f : nat → nat),
    length (filter (λ card, Card.suit card = s ∧ Card.rank card = r)
                   (imap (λ i sr, Card.mk sr.1 sr.2 (f i)) l)) =
    length (filter (λ sr : Suit * Rank, sr.1 = s ∧ sr.2 = r) l)).
  { induction l as [|sr l IH]; intros f; [done|].
    rewrite imap_cons, !filter_cons. simpl.
    specialize (IH (f ∘ S)). simpl in IH.
    repeat case_decide; simpl; try done; by rewrite <- IH. }
  rewrite (Hfilter _ id). unfold Deck.combinations.
  generalize O at 1. induction num_decks as [|n IH]; intros start; [done|].
  simpl seq. rewrite bind_cons, filter_app, length_app, IH.
  by destruct s, r.
Qed.
End FreshShoe.

(** X2. A freshly built and shuffled shoe of [num_decks] decks holds
    [52 * num_decks] cards, [num_decks] of each suit and rank, all with
    distinct identities, and [total_cards] is that number. *)
Theorem fresh_shoe_composition (shuffle : list Card.t → list Card.t)
    (num_decks : nat) :
  (∀ l, shuffle l ≡ₚ l) →
  let d := Deck.init shuffle num_decks in
  Deck.cards_remaining d = (52 * num_decks)%nat ∧
  Deck.total_cards d = (52 * num_decks)%nat ∧
  Deck.num_decks d = num_decks ∧
  (∀ s r, length (filter (λ card, Card.suit card = s ∧ Card.rank card = r)
                         (Deck.cards d)) = num_decks) ∧
  NoDup (Card.ident <$> Deck.cards d).
Proof.
  intros Hshuffle d. subst d. unfold Deck.cards_remaining. simpl.
  rewrite !Hshuffle, length_build. split_and!; try done.
  - intros s r. rewrite Hshuffle. apply count_build.
  - rewrite build_idents. apply NoDup_seq.
Qed.

Lemma fresh_shoe_composition_witness :
  let d := Deck.init reverse 2 in
  Deck.cards_remaining d = (52 * 2)%nat ∧
  Deck.total_cards d = (52 * 2)%nat ∧
  Deck.num_decks d = 2%nat ∧
  (∀ s r, length (filter (λ card, Card.suit card = s ∧ Card.rank card = r)
                         (Deck.cards d)) = 2%nat) ∧
  NoDup (Card.ident <$> Deck.cards d).
Proof.
  apply (fresh_shoe_composition reverse 2).
  intros l. apply reverse_Permutation.
Defined.


(** ** Hands *)

Section Hands.
Implicit Types (cards : Hand.t) (c : Card.t).

Lemma nominal_app cards1 cards2 :
  Hand.nominal (cards1 ++ cards2) = Hand.nominal cards1 + Hand.nominal cards2.
Proof. unfold Hand.nominal. by rewrite fmap_app, sum_Z_app. Qed.

Lemma aces_app cards1 cards2 :
  Hand.aces (cards1 ++ cards2) = (Hand.aces cards1 + Hand.aces cards2)%nat.
Proof. unfold Hand.aces. by rewrite filter_app, length_app. Qed.

Lemma hard_value_app cards1 cards2 :
  hard_value (cards1 ++ cards2) = hard_value cards1 + hard_value cards2.
Proof. rewrite !hard_value_nominal, nominal_app, aces_app. lia. Qed.

Lemma hard_value_one c : 1 <= hard_value [c] <= 10.
Proof.
  destruct c as [s r i]. destruct r; vm_compute; split; discriminate.
Qed.

Lemma hard_value_le_value cards : hard_value cards <= Hand.get_value cards.
Proof.
  rewrite hard_value_nominal.
  destruct (get_value_reduce cards) as (k & Hk & _ & -> & _). lia.
Qed.

Lemma value_fits_or_hard cards :
  Hand.get_value cards <= 21 ∨ Hand.get_value cards = hard_value cards.
Proof.
  rewrite hard_value_nominal.
  destruct (get_value_reduce cards) as (k & Hk & _ & Hv & [Hfit| ->] & _);
    [by left|by right].
Qed.

Lemma add_card_bound cards c :
  Hand.get_value (cards ++ [c]) <= Z.max 21 (Hand.get_value cards + 10).
Proof.
  pose proof (hard_value_app cards [c]). pose proof (hard_value_one c).
  pose proof (hard_value_le_value cards).
  pose proof (value_fits_or_hard (cards ++ [c])). lia.
Qed.

Lemma nominal_Permutation cards1 cards2 :
  cards1 ≡ₚ cards2 → Hand.nominal cards1 = Hand.nominal cards2.
Proof.
  intros Hp. unfold Hand.nominal. apply sum_Z_Permutation.
  by apply fmap_Permutation.
Qed.

Lemma aces_Permutation cards1 cards2 :
  cards1 ≡ₚ cards2 → Hand.aces cards1 = Hand.aces cards2.
Proof. intros Hp. unfold Hand.aces. by rewrite Hp. Qed.
End Hands.

(** X4. The value of a hand does not depend on the order of its cards, and
    neither do the bust and blackjack tests. *)
Theorem get_value_order_irrelevant (cards1 cards2 : Hand.t) :
  cards1 ≡ₚ cards2 →
  Hand.get_value cards1 = Hand.get_value cards2 ∧
  Hand.is_bust cards1 = Hand.is_bust cards2 ∧
  Hand.is_blackjack cards1 = Hand.is_blackjack cards2.
Proof.
  intros Hp.
  assert (Hv : Hand.get_value cards1 = Hand.get_value cards2).
  { unfold Hand.get_value.
    by rewrite (nominal_Permutation _ _ Hp), (aces_Permutation _ _ Hp). }
  unfold Hand.is_bust, Hand.is_blackjack.
  by rewrite Hv, (Permutation_length Hp).
Qed.

Lemma get_value_order_irrelevant_witness :
  let cards1 := (λ r, Card.mk Spades r 0) <$> [RA; R9; RA] in
  let cards2 := (λ r, Card.mk Spades r 0) <$> [R9; RA; RA] in
  Hand.get_value cards1 = Hand.get_value cards2 ∧
  Hand.is_bust cards1 = Hand.is_bust cards2 ∧
  Hand.is_blackjack cards1 = Hand.is_blackjack cards2.
Proof.
  apply (get_value_order_irrelevant
           ((λ r, Card.mk Spades r 0) <$> [RA; R9; RA])
           ((λ r, Card.mk Spades r 0) <$> [R9; RA; RA])).
  simpl. apply perm_swap.
Defined.

(** X5. A hand is a blackjack exactly when it is two cards, an ace and a
    card worth 10 (10, J, Q or K), in either order. *)
Theorem is_blackjack_ace_and_ten (cards : Hand.t) :
  Hand.is_blackjack cards = true ↔
  ∃ c1 c2, cards = [c1; c2] ∧
    ((Card.rank c1 = RA ∧ Card.value c2 = 10) ∨
     (Card.value c1 = 10 ∧ Card.rank c2 = RA)).
Proof.
  unfold Hand.is_blackjack. rewrite andb_true_iff, !bool_decide_eq_true. split.
  - intros [Hlen Hv].
    destruct cards as [|c1 [|c2 [|c3 cards]]]; try done.
    exists c1, c2. split; [done|].
    destruct c1 as [s1 r1 i1], c2 as [s2 r2 i2]. simpl.
    destruct r1, r2; vm_compute in Hv; try discriminate;
      (by left) || (by right).
  - intros (c1 & c2 & -> & Hranks). split; [done|].
    destruct c1 as [s1 r1 i1], c2 as [s2 r2 i2]. simpl in Hranks.
    destruct Hranks as [[-> Hten]|[Hten ->]];
      [destruct r2|destruct r1]; vm_compute in Hten; try discriminate;
      by vm_compute.
Qed.

(** X6. Drawing a card: a hand worth 11 or less cannot bust on it, a bust
    hand stays bust, and the new value is at most 21 or at most 10 more
    than the old one. *)
Theorem add_card_value (cards : Hand.t) (c : Card.t) :
  (Hand.get_value cards <= 11 → Hand.is_bust (Hand.add_card cards c) = false) ∧
  (Hand.is_bust cards = true → Hand.is_bust (Hand.add_card cards c) = true) ∧
  Hand.get_value (Hand.add_card cards c)
    <= Z.max 21 (Hand.get_value cards + 10).
Proof.
  unfold Hand.add_card, Hand.is_bust.
  pose proof (hard_value_app cards [c]) as Happ.
  pose proof (hard_value_one c) as Hone.
  pose proof (hard_value_le_value cards) as Hle.
  pose proof (hard_value_le_value (cards ++ [c])) as Hle'.
  pose proof (value_fits_or_hard cards) as Hfit.
  pose proof (value_fits_or_hard (cards ++ [c])) as Hfit'.
  split_and!.
  - intros Hv. apply bool_decide_eq_false_2. lia.
  - intros Hb%bool_decide_eq_true. apply bool_decide_eq_true_2. lia.
  - lia.
Qed.

(** ** More on the counter *)

Section CounterInvariant.
Implicit Types (c : CardCounter.t) (card : Card.t) (l : list Card.t).

Lemma update_ok c card : counter_ok c → counter_ok (CardCounter.update c card).
Proof.
  intros [Hsize Hrc].
  destruct (decide (Card.ident card ∈ CardCounter.seen_cards c)) as [Hin|Hnin].
  - by rewrite update_seen.
  - rewrite update_fresh by done. unfold counter_ok, card_hilo. simpl.
    rewrite size_union by set_solver. rewrite size_singleton.
    destruct (Card.rank card); simpl; lia.
Qed.

Lemma foldl_update_ok l : ∀ c,
  counter_ok c → counter_ok (foldl CardCounter.update c l).
Proof.
  induction l as [|card l IH]; intros c Hc; [done|].
  simpl. by apply IH, update_ok.
Qed.

Lemma update_seen_cards c card :
  CardCounter.seen_cards (CardCounter.update c card) =
  {[ Card.ident card ]} ∪ CardCounter.seen_cards c.
Proof.
  destruct (decide (Card.ident card ∈ CardCounter.seen_cards c)) as [Hin|Hnin].
  - rewrite update_seen by done. set_solver.
  - by rewrite update_fresh.
Qed.

Lemma foldl_update_seen_cards l : ∀ c,
  CardCounter.seen_cards (foldl CardCounter.update c l) =
  list_to_set (Card.ident <$> l) ∪ CardCounter.seen_cards c.
Proof.
  induction l as [|card l IH]; intros c; simpl; [set_solver|].
  rewrite IH, update_seen_cards. set_solver.
Qed.

Lemma size_list_to_set_le (ids : list nat) :
  (size (list_to_set ids : gset nat) ≤ length ids)%nat.
Proof.
  induction ids as [|x ids IH]; [done|]. rewrite list_to_set_cons.
  simpl length.
  rewrite size_union_alt, size_singleton.
  assert (size (list_to_set ids ∖ {[x]} : gset nat)
          ≤ size (list_to_set ids : gset nat))%nat
    by (apply subseteq_size; set_solver).
  lia.
Qed.
End CounterInvariant.

(** X7. Whatever cards a counter is fed after a reset, in whatever order
    and however often: [seen_cards] is the set of their identities,
    [cards_seen] is the size of that set (at most the number of calls), and
    the running count stays between [-cards_seen] and [cards_seen]. *)
Theorem counter_invariant (c0 : CardCounter.t) (l : list Card.t) :
  let c := foldl CardCounter.update (CardCounter.reset c0) l in
  CardCounter.seen_cards c = list_to_set (Card.ident <$> l) ∧
  CardCounter.cards_seen c = Z.of_nat (size (CardCounter.seen_cards c)) ∧
  CardCounter.cards_seen c <= Z.of_nat (length l) ∧
  - CardCounter.cards_seen c <= CardCounter.running_count c
    <= CardCounter.cards_seen c.
Proof.
  intros c.
  assert (Hok : counter_ok c).
  { apply foldl_update_ok. unfold counter_ok. simpl. split; [done|lia]. }
  assert (Hseen : CardCounter.seen_cards c = list_to_set (Card.ident <$> l)).
  { subst c. rewrite foldl_update_seen_cards. simpl. set_solver. }
  destruct Hok as [Hsize Hrc].
  split; [done|]. split; [done|]. split; [|done].
  rewrite Hsize, Hseen.
  pose proof (size_list_to_set_le (Card.ident <$> l)) as Hle.
  rewrite length_fmap in Hle. lia.
Qed.

Section TrueCount.
Local Open Scope Q_scope.

Lemma divisor_pos (d : Q) : 0 < (if Qle_bool d 0 then 1 # 2 else d).
Proof.
  destruct (Qle_bool d 0) eqn:Hd; [reflexivity|]. by apply Qle_bool_false.
Qed.

Lemma Qdiv_sign (n : Z) (m : Q) :
  0 < m →
  ((0 < n)%Z → 0 < inject_Z n / m) ∧
  (n = 0%Z → inject_Z n / m == 0) ∧
  ((n < 0)%Z → inject_Z n / m < 0).
Proof.
  intros Hm. split_and!.
  - intros Hn. apply Qlt_shift_div_l; [done|].
    rewrite Zlt_Qlt in Hn. change (inject_Z 0) with 0 in Hn. lra.
  - intros ->. unfold Qdiv. change (inject_Z 0) with 0. ring.
  - intros Hn. apply Qlt_shift_div_r; [done|].
    rewrite Zlt_Qlt in Hn. change (inject_Z 0) with 0 in Hn. lra.
Qed.
End TrueCount.

(** X8. The true count never divides by zero or by a negative number: for
    every supplied estimate, and without one, it is positive, zero or
    negative as the running count is. Without an estimate, once 26 or more
    cards have been seen the divisor is the floor of half a deck and the
    true count is twice the running count. *)
Theorem get_true_count_sign (c : CardCounter.t) (d : option Q) :
  let true_count := CardCounter.get_true_count c d in
  (0 < CardCounter.running_count c → (0 < true_count)%Q) ∧
  (CardCounter.running_count c = 0 → (true_count == 0)%Q) ∧
  (CardCounter.running_count c < 0 → (true_count < 0)%Q) ∧
  (26 <= CardCounter.cards_seen c →
     (CardCounter.get_true_count c None
      == 2 * inject_Z (CardCounter.running_count c))%Q).
Proof.
  intros true_count. subst true_count. unfold CardCounter.get_true_count.
  split_and!; try apply Qdiv_sign, divisor_pos.
  intros Hseen.
  set (x := (inject_Z (52 - CardCounter.cards_seen c) / 52)%Q).
  assert (Hx : (x <= 1 # 2)%Q).
  { subst x. apply Qle_shift_div_r; [reflexivity|].
    apply Qle_trans with (inject_Z 26); [rewrite <- Zle_Qle; lia|].
    unfold Qle. simpl. lia. }
  pose proof (Qmax_half_pos x) as Hpos. apply Qle_bool_false in Hpos.
  rewrite Hpos. rewrite (Q.max_r _ _ Hx). field.
Qed.

(** ** More on a round *)

Section RoundTrace.
Implicit Types (g : BlackjackGame.t) (c : CardCounter.t) (card : Card.t).

Lemma bind_Error {A B : Type} (m : Res A) (k : A → Res B) (e : exn) :
  m ≫= k = Error e ↔ m = Error e ∨ ∃ a, m = Ok a ∧ k a = Error e.
Proof.
  destruct m as [a|e']; simpl; split.
  - intros Hk. right. by exists a.
  - by intros [[=]|(a' & [= <-] & Hk)].
  - intros [= ->]. by left.
  - by intros [[= ->]|(a' & [=] & _)].
Qed.

Lemma deal_Error d counter e :
  Deck.deal d counter = Error e → Deck.cards d = [] ∧ e = IndexError.
Proof.
  unfold Deck.deal.
  destruct (pop (Deck.cards d)) as [[x rest]|e'] eqn:Hpop; [done|].
  simpl. intros [= <-]. by apply pop_Error in Hpop.
Qed.

Lemma deal_to_player_Error g counted e :
  BlackjackGame.deal_to_player g counted = Error e →
  Deck.cards (BlackjackGame.deck g) = [] ∧ e = IndexError.
Proof.
  unfold BlackjackGame.deal_to_player.
  intros [Hdeal|([[card d] c'] & _ & [=])]%bind_Error.
  by apply deal_Error in Hdeal.
Qed.

Lemma deal_to_dealer_Error g counted e :
  BlackjackGame.deal_to_dealer g counted = Error e →
  Deck.cards (BlackjackGame.deck g) = [] ∧ e = IndexError.
Proof.
  unfold BlackjackGame.deal_to_dealer.
  intros [Hdeal|([[card d] c'] & _ & [=])]%bind_Error.
  by apply deal_Error in Hdeal.
Qed.

Lemma deal_to_player_fields g counted g' :
  BlackjackGame.deal_to_player g counted = Ok g' →
  Deck.total_cards (BlackjackGame.deck g') =
    Deck.total_cards (BlackjackGame.deck g) ∧
  Deck.num_decks (BlackjackGame.deck g') =
    Deck.num_decks (BlackjackGame.deck g).
Proof.
  unfold BlackjackGame.deal_to_player.
  intros ([[card d] c'] & Hdeal & [= <-])%bind_Ok.
  by apply deal_Ok in Hdeal as (_ & Hn & Ht & _).
Qed.

Lemma deal_to_dealer_fields g counted g' :
  BlackjackGame.deal_to_dealer g counted = Ok g' →
  Deck.total_cards (BlackjackGame.deck g') =
    Deck.total_cards (BlackjackGame.deck g) ∧
  Deck.num_decks (BlackjackGame.deck g') =
    Deck.num_decks (BlackjackGame.deck g).
Proof.
  unfold BlackjackGame.deal_to_dealer.
  intros ([[card d] c'] & Hdeal & [= <-])%bind_Ok.
  by apply deal_Ok in Hdeal as (_ & Hn & Ht & _).
Qed.

Lemma show_hands_deck g hide :
  BlackjackGame.deck (BlackjackGame.show_hands g hide) = BlackjackGame.deck g.
Proof.
  unfold BlackjackGame.show_hands.
  by destruct hide, (BlackjackGame.counter g),
       (BlackjackGame.dealer_hand g !! 1%nat).
Qed.

Lemma show_hands_counter g hole :
  BlackjackGame.dealer_hand g !! 1%nat = Some hole →
  BlackjackGame.counter (BlackjackGame.show_hands g false) =
  (λ c, CardCounter.update c hole) <$> BlackjackGame.counter g.
Proof.
  intros Hhole. unfold BlackjackGame.show_hands. simpl.
  destruct (BlackjackGame.counter g) eqn:Hk; rewrite ?Hhole; simpl; by rewrite ?Hk.
Qed.

(** The dealer draws, each card fed to the counter, while below 17. *)
Lemma dealer_draws_trace fuel : ∀ g g',
  BlackjackGame.dealer_draws fuel g = Ok g' →
  ∃ drawn,
    Deck.cards (BlackjackGame.deck g) =
      Deck.cards (BlackjackGame.deck g') ++ reverse drawn ∧
    BlackjackGame.player_hand g' = BlackjackGame.player_hand g ∧
    BlackjackGame.dealer_hand g' = BlackjackGame.dealer_hand g ++ drawn ∧
    BlackjackGame.counter g' =
      (λ c, foldl CardCounter.update c drawn) <$> BlackjackGame.counter g ∧
    17 <= Hand.get_value (BlackjackGame.dealer_hand g') ∧
    (17 <= Hand.get_value (BlackjackGame.dealer_hand g) → drawn = []) ∧
    (drawn = [] ∨
     ∃ before last, drawn = before ++ [last] ∧
       Hand.get_value (BlackjackGame.dealer_hand g ++ before) < 17).
Proof.
  assert (Hstop : ∀ g, ¬ Hand.get_value (BlackjackGame.dealer_hand g) < 17 →
    ∃ drawn,
      Deck.cards (BlackjackGame.deck g) =
        Deck.cards (BlackjackGame.deck g) ++ reverse drawn ∧
      BlackjackGame.player_hand g = BlackjackGame.player_hand g ∧
      BlackjackGame.dealer_hand g = BlackjackGame.dealer_hand g ++ drawn ∧
      BlackjackGame.counter g =
        (λ c, foldl CardCounter.update c drawn) <$> BlackjackGame.counter g ∧
      17 <= Hand.get_value (BlackjackGame.dealer_hand g) ∧
      (17 <= Hand.get_value (BlackjackGame.dealer_hand g) → drawn = []) ∧
      (drawn = [] ∨
       ∃ before last, drawn = before ++ [last] ∧
         Hand.get_value (BlackjackGame.dealer_hand g ++ before) < 17)).
  { intros g Hv. exists []. rewrite reverse_nil, !app_nil_r.
    split_and!; try done; [by destruct (BlackjackGame.counter g)|lia|by left]. }
  induction fuel as [|fuel IH]; intros g g'; simpl; case_bool_decide as Hv;
    try done; try (intros [= <-]; by apply Hstop).
  intros (g1 & Hdeal & Hrun)%bind_Ok.
  apply deal_to_dealer_inv in Hdeal as (card & Hc & Hp & Hd & Hk).
  apply IH in Hrun as (drawn & Hc' & Hp' & Hd' & Hk' & H17 & _ & Hlast).
  exists (card :: drawn).
  rewrite Hc, Hc', Hp', Hp, Hd', Hd, Hk', Hk, reverse_cons, <- !(assoc_L (++)).
  split_and!; try done.
  - by destruct (BlackjackGame.counter g).
  - by rewrite Hd', Hd, <- (assoc_L (++)) in H17.
  - lia.
  - right. destruct Hlast as [->|(before & last & -> & Hb)].
    + exists [], card. by rewrite app_nil_r.
    + exists (card :: before), last. split; [done|].
      by rewrite Hd, <- (assoc_L (++)) in Hb.
Qed.

Lemma update_ident_seen c card :
  Card.ident card ∈ CardCounter.seen_cards (CardCounter.update c card).
Proof. rewrite update_seen_cards. set_solver. Qed.

Lemma foldl_update_keeps_seen (l : list Card.t) c (i : nat) :
  i ∈ CardCounter.seen_cards c →
  i ∈ CardCounter.seen_cards (foldl CardCounter.update c l).
Proof. rewrite foldl_update_seen_cards. set_solver. Qed.
End RoundTrace.

(** X9. When the dealer's turn returns, the dealer holds 17 or more and the
    returned flag says whether the hand is bust; the dealer drew nothing if
    already at 17 or more, drew from the end of the shoe otherwise, stopped
    at the first total of 17 or more, and so ends at 26 at most (unless the
    hand was higher before); the player's hand is untouched. *)
Theorem dealer_turn_stops (fuel : nat) (g g' : BlackjackGame.t)
    (dealer_bust : bool) :
  BlackjackGame.dealer_turn fuel g = Ok (dealer_bust, g') →
  ∃ drawn,
    BlackjackGame.dealer_hand g' = BlackjackGame.dealer_hand g ++ drawn ∧
    BlackjackGame.player_hand g' = BlackjackGame.player_hand g ∧
    Deck.cards (BlackjackGame.deck g) =
      Deck.cards (BlackjackGame.deck g') ++ reverse drawn ∧
    17 <= Hand.get_value (BlackjackGame.dealer_hand g') ∧
    dealer_bust = Hand.is_bust (BlackjackGame.dealer_hand g') ∧
    (17 <= Hand.get_value (BlackjackGame.dealer_hand g) → drawn = []) ∧
    (∀ before last, drawn = before ++ [last] →
       Hand.get_value (BlackjackGame.dealer_hand g ++ before) < 17) ∧
    Hand.get_value (BlackjackGame.dealer_hand g')
      <= Z.max (Hand.get_value (BlackjackGame.dealer_hand g)) 26.
Proof.
  unfold BlackjackGame.dealer_turn.
  intros (g1 & Hdraws & [= Hb Hg])%bind_Ok. subst g1 dealer_bust.
  apply dealer_draws_trace in Hdraws
    as (drawn & Hc & Hp & Hd & _ & H17 & Hstay & Hlast).
  destruct (show_hands_hands g false) as [Hp' Hd'].
  rewrite show_hands_deck in Hc. rewrite Hp' in Hp. rewrite Hd' in Hd, Hstay, Hlast.
  exists drawn. split_and!; try done.
  - intros before last ->. destruct Hlast as [Hnil|(b & l & Heq & Hb)].
    + by destruct before.
    + by apply app_inj_tail in Heq as [-> ->].
  - destruct Hlast as [->|(before & last & -> & Hb)].
    + rewrite Hd, app_nil_r. lia.
    + rewrite Hd, (assoc_L (++)).
      pose proof (add_card_bound (BlackjackGame.dealer_hand g ++ before) last).
      lia.
Qed.

(** The dealer starts on 16 and draws a king. *)
Lemma dealer_turn_stops_witness :
  let g := BlackjackGame.mk (scripted_shoe [RK]) None
             (imap (λ i r, Card.mk Spades r (10 + i)) [R10; R9])
             (imap (λ i r, Card.mk Hearts r (20 + i)) [R10; R6]) in
  ∃ g', BlackjackGame.dealer_turn 5 g = Ok (true, g') ∧
  ∃ drawn,
    BlackjackGame.dealer_hand g' = BlackjackGame.dealer_hand g ++ drawn ∧
    BlackjackGame.player_hand g' = BlackjackGame.player_hand g ∧
    Deck.cards (BlackjackGame.deck g) =
      Deck.cards (BlackjackGame.deck g') ++ reverse drawn ∧
    17 <= Hand.get_value (BlackjackGame.dealer_hand g') ∧
    true = Hand.is_bust (BlackjackGame.dealer_hand g') ∧
    (17 <= Hand.get_value (BlackjackGame.dealer_hand g) → drawn = []) ∧
    (∀ before last, drawn = before ++ [last] →
       Hand.get_value (BlackjackGame.dealer_hand g ++ before) < 17) ∧
    Hand.get_value (BlackjackGame.dealer_hand g')
      <= Z.max (Hand.get_value (BlackjackGame.dealer_hand g)) 26.
Proof.
  intros g. eexists. split.
  - vm_compute. reflexivity.
  - apply (dealer_turn_stops 5 g). vm_compute. reflexivity.
Defined.

Section PlayTrace.
Implicit Types (g : BlackjackGame.t) (c : CardCounter.t).

(** A round that returns, card by card: the initial deal, the player's
    draws, and, unless the player busted, the dealer's draws after the hole
    card was revealed to the counter. *)
Lemma play_trace fuel get_action deck counter g' :
  BlackjackGame.play fuel get_action (BlackjackGame.init deck counter) = Ok g' →
  ∃ p1 up p2 hole drawn dealer_drawn,
    Deck.cards deck =
      Deck.cards (BlackjackGame.deck g') ++ reverse dealer_drawn ++
      reverse drawn ++ [hole; p2; up; p1] ∧
    BlackjackGame.player_hand g' = [p1; p2] ++ drawn ∧
    BlackjackGame.dealer_hand g' = [up; hole] ++ dealer_drawn ∧
    (Hand.is_bust ([p1; p2] ++ drawn) = true → dealer_drawn = []) ∧
    (Hand.is_bust ([p1; p2] ++ drawn) = false →
     BlackjackGame.counter g' =
       (λ c, foldl CardCounter.update c
               ([p1; up; p2] ++ drawn ++ [hole] ++ dealer_drawn)) <$> counter) ∧
    (Hand.is_blackjack [p1; p2] || Hand.is_blackjack [up; hole] = true →
     drawn = [] ∧ dealer_drawn = []) ∧
    (Hand.is_blackjack [p1; p2] || Hand.is_blackjack [up; hole] = false →
     Hand.is_bust ([p1; p2] ++ drawn) = false →
     17 <= Hand.get_value ([up; hole] ++ dealer_drawn)).
Proof.
  unfold BlackjackGame.play.
  intros (g1 & (p1 & up & p2 & hole & Hc1 & Hp1 & Hd1 & Hk1)%deal_initial_cards_inv
             & Hrun)%bind_Ok.
  exists p1, up, p2, hole.
  change (BlackjackGame.show_hands g1 true) with g1 in Hrun.
  rewrite Hp1, Hd1 in Hrun.
  assert (Hreveal : ∀ g dd, BlackjackGame.dealer_hand g = [up; hole] ++ dd →
    BlackjackGame.counter (BlackjackGame.show_hands g false) =
    (λ c, CardCounter.update c hole) <$> BlackjackGame.counter g).
  { intros g dd Hd. apply show_hands_counter. by rewrite Hd. }
  destruct (Hand.is_blackjack [p1; p2] || Hand.is_blackjack [up; hole]) eqn:Hnat.
  - injection Hrun as <-. exists [], [].
    destruct (show_hands_hands g1 false) as [Hp' Hd'].
    rewrite show_hands_deck, Hp', Hd', Hp1, Hd1, (Hreveal g1 []), Hk1 by done.
    split_and!; try done. intros _. by destruct counter.
  - apply bind_Ok in Hrun as ([stood g2] & Hturn & Hrun).
    apply player_turn_inv in Hturn as (drawn & Hc2 & Hp2 & Hd2 & Hk2 & Hend).
    rewrite Hp1 in Hp2. rewrite Hd1 in Hd2. exists drawn.
    destruct stood; simpl in Hrun.
    + apply bind_Ok in Hrun as ([dealer_bust g3] & Hdealer & Hrun).
      unfold BlackjackGame.dealer_turn in Hdealer.
      apply bind_Ok in Hdealer as (g3' & Hdraws & [= _ ->]).
      apply dealer_draws_trace in Hdraws
        as (dd & Hc3 & Hp3 & Hd3 & Hk3 & H17 & _ & _).
      destruct (show_hands_hands g2 false) as [Hp' Hd'].
      rewrite show_hands_deck in Hc3. rewrite Hp', Hp2 in Hp3.
      rewrite Hd', Hd2 in Hd3. rewrite (Hreveal g2 []), Hk2, Hk1 in Hk3 by done.
      exists dd.
      assert (Hnb : Hand.is_bust ([p1; p2] ++ drawn) = false).
      { destruct Hend as [->|Hnb]; [apply two_cards_not_bust|by rewrite <- Hp2]. }
      assert (Hk : BlackjackGame.counter g3 =
                   (λ c, foldl CardCounter.update c
                           ([p1; up; p2] ++ drawn ++ [hole] ++ dd)) <$> counter).
      { rewrite Hk3. destruct counter as [c|]; [|done]. simpl. f_equal.
        by rewrite !foldl_app. }
      assert (Hfinal :
        Deck.cards deck =
          Deck.cards (BlackjackGame.deck g3) ++ reverse dd ++ reverse drawn ++
          [hole; p2; up; p1]).
      { by rewrite Hc1, Hc2, Hc3, <- !(assoc_L (++)). }
      rewrite Hd3 in H17.
      destruct dealer_bust; injection Hrun as <-.
      * rewrite Hp3, Hd3. split_and!; try done. by rewrite Hnb.
      * destruct (show_hands_hands g3 false) as [Hp'' Hd''].
        rewrite show_hands_deck, Hp'', Hd'', Hp3, Hd3.
        split_and!; try done; [by rewrite Hnb|]. intros _.
        rewrite (Hreveal g3 dd) by done. rewrite Hk.
        destruct counter as [c|]; [|done]. simpl. f_equal.
        apply update_seen. rewrite !foldl_app. simpl.
        apply foldl_update_keeps_seen, update_ident_seen.
    + injection Hrun as <-. exists []. destruct Hend as [Hne Hbust].
      rewrite Hp2 in Hbust. rewrite Hp2, Hd2.
      split_and!; try done; try congruence.
      by rewrite Hc1, Hc2, <- (assoc_L (++)).
Qed.

Lemma player_turn_Error get_action fuel : ∀ g e,
  (∀ g0, get_action g0 ≠ Ok invalid) →
  (length (Deck.cards (BlackjackGame.deck g)) < fuel)%nat →
  BlackjackGame.player_turn fuel get_action g = Error e →
  e = IndexError ∨ ∃ g0, get_action g0 = Error e.
Proof.
  induction fuel as [|fuel IH]; intros g e Hvalid Hfuel; [lia|].
  simpl. intros [Ha|(a & Ha & Hrun)]%bind_Error; [right; by exists g|].
  destruct a.
  - apply bind_Error in Hrun as [Hdeal|(g1 & Hdeal & Hrun)].
    + left. by apply deal_to_player_Error in Hdeal as [_ ->].
    + destruct (Hand.is_bust _); [done|].
      apply deal_to_player_inv in Hdeal as (card & Hc & _).
      apply (IH g1); [done| |done].
      rewrite Hc, length_app in Hfuel. simpl in Hfuel. lia.
  - done.
  - by destruct (Hvalid g).
Qed.

Lemma dealer_draws_Error fuel : ∀ g e,
  (length (Deck.cards (BlackjackGame.deck g)) < fuel)%nat →
  BlackjackGame.dealer_draws fuel g = Error e → e = IndexError.
Proof.
  induction fuel as [|fuel IH]; intros g e Hfuel; [lia|].
  simpl. case_bool_decide; [|done].
  intros [Hdeal|(g1 & Hdeal & Hrun)]%bind_Error.
  - by apply deal_to_dealer_Error in Hdeal as [_ ->].
  - apply deal_to_dealer_inv in Hdeal as (card & Hc & _).
    apply (IH g1); [|done].
    rewrite Hc, length_app in Hfuel. simpl in Hfuel. lia.
Qed.

Lemma deal_initial_cards_Error deck counter e :
  BlackjackGame.deal_initial_cards (BlackjackGame.init deck counter) = Error e →
  e = IndexError.
Proof.
  unfold BlackjackGame.deal_initial_cards.
  intros [H1|(g1 & _ & [H2|(g2 & _ & [H3|(g3 & _ & H4)]%bind_Error)
                         ]%bind_Error)]%bind_Error.
  - by apply deal_to_player_Error in H1 as [_ ->].
  - by apply deal_to_dealer_Error in H2 as [_ ->].
  - by apply deal_to_player_Error in H3 as [_ ->].
  - by apply deal_to_dealer_Error in H4 as [_ ->].
Qed.
End PlayTrace.

(** X10. A round always terminates when the strategy only answers hit or
    stand: with more fuel than cards in the shoe the loops are never cut,
    and the only exceptions are [IndexError], from an exhausted shoe, and
    whatever the strategy itself raises. *)
Theorem play_terminates (fuel : nat) (get_action : BlackjackGame.t → Res action)
    (deck : Deck.t) (counter : option CardCounter.t) (e : exn) :
  (∀ g, get_action g ≠ Ok invalid) →
  (length (Deck.cards deck) < fuel)%nat →
  BlackjackGame.play fuel get_action (BlackjackGame.init deck counter) = Error e →
  e = IndexError ∨ ∃ g, get_action g = Error e.
Proof.
  intros Hvalid Hfuel. unfold BlackjackGame.play.
  intros [Hdeal|(g1 & Hdeal & Hrun)]%bind_Error.
  { left. by apply deal_initial_cards_Error in Hdeal. }
  apply deal_initial_cards_inv in Hdeal as (p1 & up & p2 & hole & Hc1 & _).
  change (BlackjackGame.show_hands g1 true) with g1 in Hrun.
  destruct (_ || _); [done|].
  assert (Hfuel1 : (length (Deck.cards (BlackjackGame.deck g1)) < fuel)%nat).
  { rewrite Hc1, length_app in Hfuel. lia. }
  apply bind_Error in Hrun as [Hturn|([stood g2] & Hturn & Hrun)].
  { by apply player_turn_Error in Hturn. }
  destruct stood; [|done]. simpl in Hrun.
  apply player_turn_inv in Hturn as (drawn & Hc2 & _).
  apply bind_Error in Hrun as [Hdealer|([dealer_bust g3] & _ & Hrun)];
    [|by destruct dealer_bust].
  unfold BlackjackGame.dealer_turn in Hdealer.
  apply bind_Error in Hdealer as [Hdraws|(g3 & _ & [=])].
  left. apply dealer_draws_Error in Hdraws; [done|].
  rewrite show_hands_deck. rewrite Hc2, length_app in Hfuel1. lia.
Qed.

(** A shoe of two cards: the initial deal runs out. *)
Lemma play_terminates_witness :
  IndexError = IndexError ∨
  ∃ g, (λ _ : BlackjackGame.t, Ok stand) g = Error IndexError.
Proof.
  apply (play_terminates 3 (λ _, Ok stand) (scripted_shoe [RK; R5]) None).
  - intros g. discriminate.
  - simpl. lia.
  - vm_compute. reflexivity.
Defined.

(** X11. A round needs four cards: on a shoe with fewer, [play] raises
    [IndexError] during the initial deal, whatever the strategy. *)
Theorem play_needs_four_cards (fuel : nat)
    (get_action : BlackjackGame.t → Res action) (deck : Deck.t)
    (counter : option CardCounter.t) :
  (length (Deck.cards deck) < 4)%nat →
  BlackjackGame.play fuel get_action (BlackjackGame.init deck counter) =
  Error IndexError.
Proof.
  intros Hlen. unfold BlackjackGame.play.
  destruct (BlackjackGame.deal_initial_cards (BlackjackGame.init deck counter))
    as [g1|e] eqn:Hdeal.
  - apply deal_initial_cards_inv in Hdeal as (p1 & up & p2 & hole & Hc & _).
    rewrite Hc, length_app in Hlen. simpl in Hlen. lia.
  - by apply deal_initial_cards_Error in Hdeal as ->.
Qed.

Lemma play_needs_four_cards_witness :
  BlackjackGame.play 9 basic_strategy
    (BlackjackGame.init (scripted_shoe [RK; R5; R9]) None) = Error IndexError.
Proof.
  apply (play_needs_four_cards 9 basic_strategy (scripted_shoe [RK; R5; R9]) None).
  simpl. lia.
Defined.

(** X12. A completed round neither loses nor duplicates a card: the cards
    dealt came off the end of the shoe and are exactly the cards of the
    two hands, each hand holding at least two. *)
Theorem play_conserves_cards (fuel : nat)
    (get_action : BlackjackGame.t → Res action) (deck : Deck.t)
    (counter : option CardCounter.t) (g' : BlackjackGame.t) :
  BlackjackGame.play fuel get_action (BlackjackGame.init deck counter) = Ok g' →
  ∃ dealt,
    Deck.cards deck = Deck.cards (BlackjackGame.deck g') ++ dealt ∧
    dealt ≡ₚ BlackjackGame.player_hand g' ++ BlackjackGame.dealer_hand g' ∧
    (2 ≤ length (BlackjackGame.player_hand g'))%nat ∧
    (2 ≤ length (BlackjackGame.dealer_hand g'))%nat ∧
    (Deck.cards_remaining (BlackjackGame.deck g')
     + length (BlackjackGame.player_hand g')
     + length (BlackjackGame.dealer_hand g') = Deck.cards_remaining deck)%nat.
Proof.
  intros (p1 & up & p2 & hole & drawn & dd & Hc & Hp & Hd & _)%play_trace.
  exists (reverse dd ++ reverse drawn ++ [hole; p2; up; p1]).
  assert (Hperm : reverse dd ++ reverse drawn ++ [hole; p2; up; p1] ≡ₚ
                  BlackjackGame.player_hand g' ++ BlackjackGame.dealer_hand g').
  { rewrite Hp, Hd, !reverse_Permutation. simpl. solve_Permutation. }
  split; [done|]. split; [done|].
  unfold Deck.cards_remaining. rewrite Hc, length_app, (Permutation_length Hperm).
  rewrite length_app, Hp, Hd, !length_app. simpl. lia.
Qed.

Lemma play_conserves_cards_witness :
  ∃ g', BlackjackGame.play 10 basic_strategy
          (BlackjackGame.init shoe_player_21 None) = Ok g' ∧
  ∃ dealt,
    Deck.cards shoe_player_21 = Deck.cards (BlackjackGame.deck g') ++ dealt ∧
    dealt ≡ₚ BlackjackGame.player_hand g' ++ BlackjackGame.dealer_hand g' ∧
    (2 ≤ length (BlackjackGame.player_hand g'))%nat ∧
    (2 ≤ length (BlackjackGame.dealer_hand g'))%nat ∧
    (Deck.cards_remaining (BlackjackGame.deck g')
     + length (BlackjackGame.player_hand g')
     + length (BlackjackGame.dealer_hand g')
     = Deck.cards_remaining shoe_player_21)%nat.
Proof.
  eexists. split.
  - vm_compute. reflexivity.
  - apply (play_conserves_cards 10 basic_strategy shoe_player_21 None).
    vm_compute. reflexivity.
Defined.

(** X13. In a completed round that the player did not bust, every card of
    both hands has been fed to the counter, the hole card included and,
    though it is revealed twice, only once: with distinct identities new
    to the counter, [cards_seen] grows by the number of cards in the two
    hands and the running count by their Hi-Lo tags. *)
Theorem play_counts_every_card (fuel : nat)
    (get_action : BlackjackGame.t → Res action) (deck : Deck.t)
    (c0 : CardCounter.t) (g' : BlackjackGame.t) :
  BlackjackGame.play fuel get_action (BlackjackGame.init deck (Some c0)) = Ok g' →
  Hand.is_bust (BlackjackGame.player_hand g') = false →
  let hands := BlackjackGame.player_hand g' ++ BlackjackGame.dealer_hand g' in
  ∃ c', BlackjackGame.counter g' = Some c' ∧
    CardCounter.seen_cards c' =
      list_to_set (Card.ident <$> hands) ∪ CardCounter.seen_cards c0 ∧
    (NoDup (Card.ident <$> Deck.cards deck) →
     (∀ card, card ∈ Deck.cards deck →
        Card.ident card ∉ CardCounter.seen_cards c0) →
     CardCounter.cards_seen c' =
       CardCounter.cards_seen c0 + Z.of_nat (length hands) ∧
     CardCounter.running_count c' =
       CardCounter.running_count c0 + sum_Z (card_hilo <$> hands)).
Proof.
  intros (p1 & up & p2 & hole & drawn & dd & Hc & Hp & Hd & _ & Hk & _)%play_trace
         Hnb hands.
  rewrite Hp in Hnb.
  set (order := [p1; up; p2] ++ drawn ++ [hole] ++ dd).
  assert (Hk' : BlackjackGame.counter g' =
                Some (foldl CardCounter.update c0 order)) by exact (Hk Hnb).
  clear Hk.
  assert (Horder : order ≡ₚ hands).
  { subst order hands. rewrite Hp, Hd. simpl. solve_Permutation. }
  eexists. split; [exact Hk'|]. split.
  - rewrite foldl_update_seen_cards. f_equal.
    apply list_to_set_perm_L. by apply fmap_Permutation.
  - intros Hnd Hfresh.
    assert (Hperm : Deck.cards deck ≡ₚ
                    order ++ Deck.cards (BlackjackGame.deck g')).
    { rewrite Hc, !reverse_Permutation. subst order. simpl. solve_Permutation. }
    rewrite Hperm, fmap_app in Hnd. apply NoDup_app in Hnd as (Hnd & _ & _).
    rewrite (foldl_update_fresh order); [|done|].
    + cbn [CardCounter.running_count CardCounter.cards_seen].
      rewrite (Permutation_length Horder).
      by rewrite (sum_Z_Permutation _ (card_hilo <$> hands))
        by (by apply fmap_Permutation).
    + intros card Hin. apply Hfresh. rewrite Hperm. apply elem_of_app. by left.
Qed.

Lemma play_counts_every_card_witness :
  ∃ g', BlackjackGame.play 10 basic_strategy
          (BlackjackGame.init shoe_player_21 (Some CardCounter.init)) = Ok g' ∧
  Hand.is_bust (BlackjackGame.player_hand g') = false ∧
  let hands := BlackjackGame.player_hand g' ++ BlackjackGame.dealer_hand g' in
  ∃ c', BlackjackGame.counter g' = Some c' ∧
    CardCounter.seen_cards c' =
      list_to_set (Card.ident <$> hands)
      ∪ CardCounter.seen_cards CardCounter.init ∧
    (NoDup (Card.ident <$> Deck.cards shoe_player_21) →
     (∀ card, card ∈ Deck.cards shoe_player_21 →
        Card.ident card ∉ CardCounter.seen_cards CardCounter.init) →
     CardCounter.cards_seen c' =
       CardCounter.cards_seen CardCounter.init + Z.of_nat (length hands) ∧
     CardCounter.running_count c' =
       CardCounter.running_count CardCounter.init
       + sum_Z (card_hilo <$> hands)).
Proof.
  eexists. split; [|split].
  - vm_compute. reflexivity.
  - vm_compute. reflexivity.
  - apply (play_counts_every_card 10 basic_strategy shoe_player_21
             CardCounter.init); vm_compute; reflexivity.
Defined.

(** ** Statistics *)

Section Stats.
Implicit Types (s : GameStats.t) (call : record_call).

Lemma record_result_ok s (res : result) (bet : Z) (bj bust : bool) :
  0 <= bet → stats_ok s → stats_ok (GameStats.record_result s res bet bj bust).
Proof.
  intros Hbet (Hsum & Hbj & Hbust & Hpush & Htb & Hlo & Hhi).
  assert (Hq : (0 <= inject_Z bet)%Q).
  { change 0%Q with (inject_Z 0). by rewrite <- Zle_Qle. }
  unfold stats_ok, GameStats.record_result.
  destruct res, bj, bust; simpl; rewrite ?inject_Z_plus;
    split_and!; try lia; lra.
Qed.

Lemma record_result_totals s (res : result) (bet : Z) (bj bust : bool) :
  GameStats.total_games (GameStats.record_result s res bet bj bust)
    = GameStats.total_games s + 1 ∧
  GameStats.total_bet (GameStats.record_result s res bet bj bust)
    = GameStats.total_bet s + bet.
Proof. unfold GameStats.record_result. by destruct res, bj. Qed.

Lemma record_all_snoc (calls : list record_call) call :
  record_all (calls ++ [call]) = record_one (record_all calls) call.
Proof. unfold record_all. by rewrite foldl_app. Qed.
End Stats.

(** X14. After any sequence of [record_result] calls on fresh statistics:
    wins, losses and pushes add up to [total_games], which is the number
    of calls; blackjacks are at most the wins and busts at most the
    losses; [total_bet] is the sum of the bets; and when no bet is
    negative the bankroll lies between [-total_bet] and
    [1.5 * total_bet]. *)
Theorem record_result_tallies (calls : list record_call) :
  let s := record_all calls in
  GameStats.wins s + GameStats.losses s + GameStats.pushes s
    = GameStats.total_games s ∧
  GameStats.total_games s = Z.of_nat (length calls) ∧
  0 <= GameStats.blackjacks s <= GameStats.wins s ∧
  0 <= GameStats.busts s <= GameStats.losses s ∧
  GameStats.total_bet s = sum_Z ((λ call : record_call, call.1.1.2) <$> calls) ∧
  (Forall (λ call : record_call, 0 <= call.1.1.2) calls →
   (- inject_Z (GameStats.total_bet s) <= GameStats.bankroll s
    <= (3 # 2) * inject_Z (GameStats.total_bet s))%Q).
Proof.
  induction calls as [|call calls IH] using rev_ind.
  - simpl. split_and!; done.
  - rewrite record_all_snoc. simpl in IH.
    destruct IH as (Hsum & Hn & Hbj & Hbust & Htb & Hbank).
    destruct call as [[[res bet] bj] bust]. simpl.
    destruct (record_result_totals (record_all calls) res bet bj bust)
      as [Hg Ht].
    rewrite Hg, Ht, fmap_app, sum_Z_app, length_app. simpl.
    assert (Hcount :
      GameStats.wins (GameStats.record_result (record_all calls) res bet bj bust)
      + GameStats.losses (GameStats.record_result (record_all calls) res bet bj bust)
      + GameStats.pushes (GameStats.record_result (record_all calls) res bet bj bust)
      = GameStats.total_games (record_all calls) + 1 ∧
      0 <= GameStats.blackjacks
             (GameStats.record_result (record_all calls) res bet bj bust)
        <= GameStats.wins
             (GameStats.record_result (record_all calls) res bet bj bust) ∧
      0 <= GameStats.busts
             (GameStats.record_result (record_all calls) res bet bj bust)
        <= GameStats.losses
             (GameStats.record_result (record_all calls) res bet bj bust)).
    { unfold GameStats.record_result. destruct res, bj, bust; simpl; lia. }
    destruct Hcount as (Hc1 & Hc2 & Hc3).
    split_and!; try done; try lia.
    intros [Hpos Hbet]%Forall_app. apply Forall_cons_1 in Hbet as [Hbet _].
    simpl in Hbet.
    specialize (Hbank Hpos).
    assert (Hq : (0 <= inject_Z bet)%Q).
    { change 0%Q with (inject_Z 0). by rewrite <- Zle_Qle. }
    rewrite <- Ht. unfold GameStats.record_result.
    destruct res, bj; simpl; rewrite ?inject_Z_plus; lra.
Qed.

Section Summary.

End Summary.


(** ** More on the strategies *)

(** Decide every integer test of a strategy's chart. *)
Ltac chart_cases :=
  repeat (case_bool_decide; try done; try lia;
          repeat match goal with
          | H : _ ∈ _ |- _ => rewrite ?elem_of_cons, ?elem_of_nil in H
          | H : ¬ (_ ∈ _) |- _ => rewrite ?elem_of_cons, ?elem_of_nil in H
          end; try lia).

(** X16. The strategies keep the contract of [player_turn]: with a dealer
    card on the table [basic_strategy] and [card_counting_strategy] answer
    hit or stand, never anything else, and [num_strategy] always does;
    with no dealer card the first two raise [IndexError]. *)
Theorem strategies_answer_hit_or_stand (g : BlackjackGame.t)
    (counter : CardCounter.t) (hit_num : Z) :
  (BlackjackGame.dealer_hand g = [] →
     basic_strategy g = Error IndexError ∧
     card_counting_strategy g counter = Error IndexError) ∧
  (BlackjackGame.dealer_hand g ≠ [] →
     (basic_strategy g = Ok hit ∨ basic_strategy g = Ok stand) ∧
     (card_counting_strategy g counter = Ok hit ∨
      card_counting_strategy g counter = Ok stand)) ∧
  (num_strategy g hit_num = hit ∨ num_strategy g hit_num = stand).
Proof.
  split_and!.
  - intros Hd. unfold basic_strategy, card_counting_strategy, dealer_up_value.
    by rewrite Hd.
  - intros Hd. destruct (BlackjackGame.dealer_hand g) as [|up rest] eqn:Hhand;
      [done|].
    assert (Hup : BlackjackGame.dealer_hand g !! 0%nat = Some up)
      by by rewrite Hhand.
    unfold basic_strategy, card_counting_strategy.
    rewrite (dealer_up_value_Ok g up Hup). simpl.
    split.
    + destruct (is_soft _); chart_cases; auto.
    + destruct (is_soft _); chart_cases;
        repeat (destruct (Qle_bool _ _)); auto.
  - unfold num_strategy. case_bool_decide; auto.
Qed.

(** X17. Where the two chart strategies cannot differ: on a soft hand, on
    a total of 11 or less (both hit), of 17 or more (both stand), and on
    14, [card_counting_strategy] answers as [basic_strategy] does,
    whatever the count. Both hit on 11 or less and stand on 19 or more. *)
Theorem counting_agrees_with_basic (g : BlackjackGame.t)
    (counter : CardCounter.t) :
  let value := Hand.get_value (BlackjackGame.player_hand g) in
  BlackjackGame.dealer_hand g ≠ [] →
  (is_soft (BlackjackGame.player_hand g) = true ∨ value <= 11 ∨ 17 <= value
   ∨ value = 14 →
     card_counting_strategy g counter = basic_strategy g) ∧
  (value <= 11 → basic_strategy g = Ok hit) ∧
  (19 <= value → basic_strategy g = Ok stand).
Proof.
  intros value Hd.
  destruct (BlackjackGame.dealer_hand g) as [|up rest] eqn:Hhand; [done|].
  assert (Hup : BlackjackGame.dealer_hand g !! 0%nat = Some up)
    by by rewrite Hhand.
  unfold basic_strategy, card_counting_strategy.
  rewrite (dealer_up_value_Ok g up Hup). simpl. fold value.
  clearbody value. split_and!.
  - intros Hcase. destruct (is_soft _); [done|].
    destruct Hcase as [?|Hcase]; [done|]. chart_cases.
  - intros Hv. destruct (is_soft _); chart_cases.
  - intros Hv. destruct (is_soft _); chart_cases.
Qed.

Lemma counting_agrees_with_basic_witness :
  let g := decision_game [RA; R7] R9 40 in
  let value := Hand.get_value (BlackjackGame.player_hand g) in
  (is_soft (BlackjackGame.player_hand g) = true ∨ value <= 11 ∨ 17 <= value
   ∨ value = 14 →
     card_counting_strategy g (CardCounter.mk 9 0 ∅) = basic_strategy g) ∧
  (value <= 11 → basic_strategy g = Ok hit) ∧
  (19 <= value → basic_strategy g = Ok stand).
Proof.
  apply (counting_agrees_with_basic (decision_game [RA; R7] R9 40)
           (CardCounter.mk 9 0 ∅)).
  discriminate.
Defined.

Section CountingMonotone.
Local Open Scope Q_scope.

Lemma Qdiv_le_mono (x y : Z) (m : Q) :
  (x <= y)%Z → 0 < m → inject_Z x / m <= inject_Z y / m.
Proof.
  intros Hxy Hm. unfold Qdiv. apply Qmult_le_compat_r.
  - by rewrite <- Zle_Qle.
  - apply Qlt_le_weak. by apply Qinv_lt_0_compat.
Qed.

Lemma strategy_true_count_mono (g : BlackjackGame.t) (c1 c2 : CardCounter.t) :
  (CardCounter.running_count c1 <= CardCounter.running_count c2)%Z →
  strategy_true_count g c1 <= strategy_true_count g c2.
Proof.
  intros Hrc. rewrite !strategy_true_count_live.
  apply Qdiv_le_mono; [done|]. apply Qmax_half_pos.
Qed.
End CountingMonotone.

(** X18. A higher running count never turns a stand into a hit: on the
    same game, if [card_counting_strategy] stands with one counter it
    stands with any counter whose running count is at least as high. *)
Theorem counting_stand_monotone (g : BlackjackGame.t)
    (c1 c2 : CardCounter.t) :
  CardCounter.running_count c1 <= CardCounter.running_count c2 →
  card_counting_strategy g c1 = Ok stand →
  card_counting_strategy g c2 = Ok stand.
Proof.
  intros Hle%(strategy_true_count_mono g). unfold card_counting_strategy.
  destruct (dealer_up_value g) as [dealer|e]; [|done]. simpl.
  set (t1 := strategy_true_count g c1) in *.
  set (t2 := strategy_true_count g c2) in *.
  set (value := Hand.get_value (BlackjackGame.player_hand g)).
  clearbody t1 t2 value.
  destruct (is_soft _); [done|].
  chart_cases; Qcases; try done; lra.
Qed.

(** Hard 16 against a 10: stands from a running count of 0 on. *)
Lemma counting_stand_monotone_witness :
  card_counting_strategy (decision_game [R10; R6] R10 52)
    (CardCounter.mk 3 0 ∅) = Ok stand.
Proof.
  apply (counting_stand_monotone (decision_game [R10; R6] R10 52)
           (CardCounter.mk 0 0 ∅) (CardCounter.mk 3 0 ∅)).
  - simpl. lia.
  - vm_compute. reflexivity.
Defined.

Section NumStrategy.
Lemma low_hand_cannot_bust (cards : Hand.t) (c : Card.t) :
  Hand.get_value cards <= 11 → Hand.is_bust (cards ++ [c]) = false.
Proof.
  intros Hv. unfold Hand.is_bust. apply bool_decide_eq_false_2.
  pose proof (hard_value_app cards [c]). pose proof (hard_value_one c).
  pose proof (hard_value_le_value cards).
  pose proof (value_fits_or_hard (cards ++ [c])). lia.
Qed.
End NumStrategy.

(** X19. Playing [num_strategy] with threshold [hit_num]: the player
    stands only on a total above [hit_num], and with a threshold of 11 or
    less the player never busts. *)
Theorem num_strategy_turn (fuel : nat) (hit_num : Z)
    (g g' : BlackjackGame.t) (stood : bool) :
  BlackjackGame.player_turn fuel (λ g0, Ok (num_strategy g0 hit_num)) g
    = Ok (stood, g') →
  (stood = true → hit_num < Hand.get_value (BlackjackGame.player_hand g')) ∧
  (hit_num <= 11 → stood = true).
Proof.
  revert g. induction fuel as [|fuel IH]; intros g; [done|].
  simpl. unfold num_strategy at 1. case_bool_decide as Hv; simpl.
  - intros (g1 & Hdeal & Hrun)%bind_Ok.
    apply deal_to_player_inv in Hdeal as (card & _ & Hp & _).
    destruct (Hand.is_bust (BlackjackGame.player_hand g1)) eqn:Hbust.
    + injection Hrun as <- <-. split; [done|]. intros Hlow.
      rewrite Hp, low_hand_cannot_bust in Hbust by lia. done.
    + by apply IH in Hrun.
  - intros [= <- <-]. split; [lia|done].
Qed.

Lemma num_strategy_turn_witness :
  ∃ g', BlackjackGame.player_turn 5 (λ g0, Ok (num_strategy g0 11))
          (decision_game [R5; R4] R10 3) = Ok (true, g') ∧
  (true = true → 11 < Hand.get_value (BlackjackGame.player_hand g')) ∧
  (11 <= 11 → true = true).
Proof.
  eexists. split.
  - vm_compute. reflexivity.
  - apply (num_strategy_turn 5 11 (decision_game [R5; R4] R10 3)).
    vm_compute. reflexivity.
Defined.

(** X20. When nobody has busted, the line [determine_winner] prints and
    the result [_record_game_result] records agree: a blackjack line is a
    win counted as a blackjack, a win line a plain win, either dealer line
    a loss, and a push line a push. *)
Theorem determine_winner_matches_record (g : BlackjackGame.t) (bet : Z)
    (stats : GameStats.t) :
  Hand.is_bust (BlackjackGame.player_hand g) = false →
  Hand.is_bust (BlackjackGame.dealer_hand g) = false →
  let stats' := BlackjackBot._record_game_result bet stats g in
  match BlackjackGame.determine_winner g with
  | say_blackjack =>
      GameStats.wins stats' = GameStats.wins stats + 1 ∧
      GameStats.blackjacks stats' = GameStats.blackjacks stats + 1
  | say_you_win =>
      GameStats.wins stats' = GameStats.wins stats + 1 ∧
      GameStats.blackjacks stats' = GameStats.blackjacks stats
  | say_dealer_blackjack | say_dealer_wins =>
      GameStats.losses stats' = GameStats.losses stats + 1 ∧
      GameStats.busts stats' = GameStats.busts stats
  | say_push => GameStats.pushes stats' = GameStats.pushes stats + 1
  end.
Proof.
  intros Hp Hd stats'. subst stats'.
  unfold BlackjackGame.determine_winner, BlackjackBot._record_game_result.
  rewrite Hp, Hd.
  destruct (Hand.is_blackjack (BlackjackGame.player_hand g)),
           (Hand.is_blackjack (BlackjackGame.dealer_hand g)); simpl;
    repeat case_bool_decide; simpl; done.
Qed.

Lemma determine_winner_matches_record_witness :
  let g := decision_game [RA; RK] R9 10 in
  let stats' := BlackjackBot._record_game_result 2 GameStats.init g in
  match BlackjackGame.determine_winner g with
  | say_blackjack =>
      GameStats.wins stats' = GameStats.wins GameStats.init + 1 ∧
      GameStats.blackjacks stats' = GameStats.blackjacks GameStats.init + 1
  | say_you_win =>
      GameStats.wins stats' = GameStats.wins GameStats.init + 1 ∧
      GameStats.blackjacks stats' = GameStats.blackjacks GameStats.init
  | say_dealer_blackjack | say_dealer_wins =>
      GameStats.losses stats' = GameStats.losses GameStats.init + 1 ∧
      GameStats.busts stats' = GameStats.busts GameStats.init
  | say_push => GameStats.pushes stats' = GameStats.pushes GameStats.init + 1
  end.
Proof.
  apply (determine_winner_matches_record (decision_game [RA; RK] R9 10) 2
           GameStats.init); vm_compute; reflexivity.
Defined.

(** ** The simulation loop *)

Section PlayGames.
Implicit Types (self : BlackjackBot.t) (g : BlackjackGame.t).

Lemma get_bet_size_range (t : Q) : 0 <= BlackjackBot.get_bet_size t <= 50.
Proof.
  unfold BlackjackBot.get_bet_size.
  repeat (destruct (Qlt_bool t _)); lia.
Qed.

Lemma record_game_result_ok (bet : Z) (s : GameStats.t) g :
  0 <= bet → stats_ok s →
  stats_ok (BlackjackBot._record_game_result bet s g) ∧
  GameStats.total_games (BlackjackBot._record_game_result bet s g)
    = GameStats.total_games s + 1 ∧
  GameStats.total_bet (BlackjackBot._record_game_result bet s g)
    = GameStats.total_bet s + bet.
Proof.
  intros Hbet Hok. unfold BlackjackBot._record_game_result.
  repeat match goal with
         | |- context [if ?b then _ else _] => destruct b
         end;
    (split; [by apply record_result_ok|apply record_result_totals]).
Qed.

(** A round leaves a game without a counter without one. *)
Lemma play_without_counter fuel get_action deck g' :
  BlackjackGame.play fuel get_action (BlackjackGame.init deck None) = Ok g' →
  BlackjackGame.counter g' = None.
Proof.
  intros Hplay.
  destruct (Hand.is_bust (BlackjackGame.player_hand g')) eqn:Hbust.
  - apply play_inv in Hplay
      as (p1 & up & p2 & hole & drawn & dd & Hp & _ & Hcase).
    rewrite Hp in Hbust.
    destruct Hcase as [(_ & -> & _)|[(_ & _ & Hnb)|(_ & _ & _ & _ & _ & _ & Hk)]].
    + simpl in Hbust. by rewrite two_cards_not_bust in Hbust.
    + congruence.
    + done.
  - apply play_trace in Hplay
      as (p1 & up & p2 & hole & drawn & dd & _ & Hp & _ & _ & Hk & _).
    rewrite Hp in Hbust. by apply Hk.
Qed.

Lemma play_rounds_stats fuel shuffles : ∀ (num_games built : nat) self deck bot',
  BlackjackBot.play_rounds fuel shuffles built num_games self deck = Ok bot' →
  stats_ok (BlackjackBot.stats self) →
  stats_ok (BlackjackBot.stats bot') ∧
  GameStats.total_games (BlackjackBot.stats bot') =
    GameStats.total_games (BlackjackBot.stats self) + Z.of_nat num_games ∧
  GameStats.total_bet (BlackjackBot.stats self)
    <= GameStats.total_bet (BlackjackBot.stats bot')
    <= GameStats.total_bet (BlackjackBot.stats self) + 50 * Z.of_nat num_games ∧
  (BlackjackBot.counter self = None →
     GameStats.total_bet (BlackjackBot.stats bot') =
       GameStats.total_bet (BlackjackBot.stats self) + Z.of_nat num_games ∧
     BlackjackBot.counter bot' = None) ∧
  is_Some (BlackjackBot.deck bot').
Proof.
  induction num_games as [|n IH]; intros built self deck bot'.
  - simpl. intros [= <-] Hok. simpl. split_and!; try done; try lia.
    intros Hc. split; [lia|done].
  - simpl. intros (reshuffle & _ & (game & Hplay & Hrest)%bind_Ok)%bind_Ok Hok.
    set (counter := if reshuffle then CardCounter.reset <$> BlackjackBot.counter self
                    else BlackjackBot.counter self) in *.
    set (bet := match counter with
                | Some c => _
                | None => 1
                end) in *.
    assert (Hbet : 0 <= bet <= 50).
    { subst bet. destruct counter; [apply get_bet_size_range|lia]. }
    destruct (record_game_result_ok bet (BlackjackBot.stats self) game)
      as (Hok' & Hg & Ht); [lia|done|].
    apply IH in Hrest as (Hok'' & Hg' & Ht' & Hnone & Hdeck); [|done].
    simpl in Hg', Ht', Hnone. rewrite Hg in Hg'. rewrite Ht in Ht'.
    split_and!; try done; try lia.
    intros Hc.
    assert (Hcounter : counter = None).
    { subst counter. rewrite Hc. by destruct reshuffle. }
    assert (Hbet1 : bet = 1) by (subst bet; by rewrite Hcounter).
    rewrite Hcounter in Hplay. apply play_without_counter in Hplay.
    destruct (Hnone Hplay) as [Htb Hcb]. rewrite Ht, Hbet1 in Htb.
    split; [lia|done].
Qed.
End PlayGames.

(** X21. When [play_games] returns after [num_games] rounds, on statistics
    that were in order (as fresh ones are): [total_games] has grown by
    [num_games]; wins, losses and pushes still add up to it; [total_bet]
    has grown by at most 50 a round, and by exactly 1 a round for a bot
    that does not count cards; the bankroll stays between [-total_bet] and
    [1.5 * total_bet]; and the bot holds a shoe. *)
Theorem play_games_tallies (fuel : nat)
    (shuffles : nat → list Card.t → list Card.t)
    (self bot' : BlackjackBot.t) (num_games : nat) :
  BlackjackBot.play_games fuel shuffles self num_games = Ok bot' →
  stats_ok (BlackjackBot.stats self) →
  stats_ok (BlackjackBot.stats bot') ∧
  GameStats.total_games (BlackjackBot.stats bot') =
    GameStats.total_games (BlackjackBot.stats self) + Z.of_nat num_games ∧
  GameStats.total_bet (BlackjackBot.stats self)
    <= GameStats.total_bet (BlackjackBot.stats bot')
    <= GameStats.total_bet (BlackjackBot.stats self) + 50 * Z.of_nat num_games ∧
  (BlackjackBot.counter self = None →
     GameStats.total_bet (BlackjackBot.stats bot') =
       GameStats.total_bet (BlackjackBot.stats self) + Z.of_nat num_games) ∧
  is_Some (BlackjackBot.deck bot').
Proof.
  unfold BlackjackBot.play_games. intros Hrun Hok.
  apply play_rounds_stats in Hrun as (Hok' & Hg & Ht & Hnone & Hdeck); [|done].
  cbn [BlackjackBot.stats BlackjackBot.counter] in Hg, Ht, Hnone.
  split; [done|]. split; [done|]. split; [done|]. split; [|done].
  intros Hc. rewrite Hc in Hnone. by destruct Hnone.
Qed.

(** X22. A bot configured with no deck cannot play: the shoe is empty,
    [needs_shuffle] divides by its size, and [play_games] raises
    [ZeroDivisionError] at the first round. *)
Theorem play_games_without_decks (fuel : nat)
    (shuffles : nat → list Card.t → list Card.t)
    (self : BlackjackBot.t) (num_games : nat) :
  BlackjackBot.num_decks self = 0%nat →
  BlackjackBot.play_games fuel shuffles self (S num_games)
    = Error ZeroDivisionError.
Proof.
  intros Hn. unfold BlackjackBot.play_games. simpl.
  unfold Deck.needs_shuffle, Deck.penetration. simpl. by rewrite Hn.
Qed.

Lemma play_games_without_decks_witness :
  BlackjackBot.play_games 9 (λ _, reverse)
    (BlackjackBot.init (λ g _, basic_strategy g) false 0 75) 3
  = Error ZeroDivisionError.
Proof.
  apply (play_games_without_decks 9 (λ _, reverse)
           (BlackjackBot.init (λ g _, basic_strategy g) false 0 75) 2).
  reflexivity.
Defined.

(** Two rounds on a single deck, standing at once, without counting. *)
Lemma play_games_tallies_witness :
  let self := BlackjackBot.init (λ _ _, Ok stand) false 1 75 in
  ∃ bot', BlackjackBot.play_games 60 (λ _, reverse) self 2 = Ok bot' ∧
  stats_ok (BlackjackBot.stats bot') ∧
  GameStats.total_games (BlackjackBot.stats bot') =
    GameStats.total_games (BlackjackBot.stats self) + Z.of_nat 2 ∧
  GameStats.total_bet (BlackjackBot.stats self)
    <= GameStats.total_bet (BlackjackBot.stats bot')
    <= GameStats.total_bet (BlackjackBot.stats self) + 50 * Z.of_nat 2 ∧
  (BlackjackBot.counter self = None →
     GameStats.total_bet (BlackjackBot.stats bot') =
       GameStats.total_bet (BlackjackBot.stats self) + Z.of_nat 2) ∧
  is_Some (BlackjackBot.deck bot').
Proof.
  intros self. eexists. split.
  - vm_compute. reflexivity.
  - apply (play_games_tallies 60 (λ _, reverse) self _ 2).
    + vm_compute. reflexivity.
    + unfold stats_ok. simpl. split_and!; try lia; by vm_compute.
Defined.

(** X23. The order in which new cards are seen does not matter: feeding a
    counter the same cards, with distinct identities it has not seen, in
    two different orders gives the same counter. *)
Theorem update_order_irrelevant (c : CardCounter.t) (l l' : list Card.t) :
  l ≡ₚ l' →
  NoDup (Card.ident <$> l) →
  (∀ card, card ∈ l → Card.ident card ∉ CardCounter.seen_cards c) →
  foldl CardCounter.update c l = foldl CardCounter.update c l'.
Proof.
  intros Hp Hnd Hfresh.
  rewrite (foldl_update_fresh l), (foldl_update_fresh l'); try done.
  - f_equal.
    + f_equal. apply sum_Z_Permutation. by apply fmap_Permutation.
    + by rewrite (Permutation_length Hp).
    + f_equal. apply list_to_set_perm_L. by apply fmap_Permutation.
  - by rewrite <- Hp.
  - intros card Hin. apply Hfresh. by rewrite Hp.
Qed.

Lemma update_order_irrelevant_witness :
  foldl CardCounter.update CardCounter.init (Deck.build 1) =
  foldl CardCounter.update CardCounter.init (reverse (Deck.build 1)).
Proof.
  apply (update_order_irrelevant CardCounter.init (Deck.build 1)
           (reverse (Deck.build 1))).
  - symmetry. apply reverse_Permutation.
  - rewrite build_idents. apply NoDup_seq.
  - intros card _. simpl. apply not_elem_of_empty.
Defined.
